(** * ETF-Analyze: the fetch-and-normalize pipeline of [streamlit_app.py]

    A shallow embedding of [fetch_etf_data] (the paginated fetch loop and the
    pandas clean-up pass) and of the view selection that follows it (the size
    slider, the two sorted views and the range filters), with the properties
    the specification states about them.

    Conventions.
    - Python integers are [Z]; JSON numbers and float64 values are rationals
      ([Q]) extended with the two infinities, NaN being a cell of its own.
      Rounding is not modelled: no property below depends on it.
    - Python exceptions are an error type [exn] and fallible code returns
      [result]; the side effects of the loop (requests, warnings, pauses)
      are an event trace.
    - The libraries the script calls (requests, pandas, Streamlit) are
      modelled by what their documentation promises for the calls made
      here; each such definition says so. *)

From Stdlib Require Import List ZArith QArith Bool String Ascii Lia.
From Stdlib Require Import Permutation Sorted.
Import ListNotations.

Set Warnings "-register-all".

Local Open Scope string_scope.
Local Open Scope list_scope.
Local Open Scope Z_scope.

(* ================================================================= *)
(** ** Exceptions *)

Inductive exn : Type :=
| KeyError (key : string)
| AttributeError (attr : string)
| TypeError (what : string)
| JSONDecodeError
| ConnectionError.

Inductive result (A : Type) : Type :=
| Ok (a : A)
| Raise (e : exn).

Arguments Ok {A} a.
Arguments Raise {A} e.

Definition bind {A B : Type} (r : result A) (k : A -> result B) : result B :=
  match r with
  | Ok a => k a
  | Raise e => Raise e
  end.

Notation "x <- r ;; k" := (bind r (fun x => k))
  (at level 61, r at next level, right associativity).

Definition is_ok {A : Type} (r : result A) : bool :=
  match r with Ok _ => true | Raise _ => false end.

(** [for x in xs: acc = f acc x], stopping at the first exception. *)
Fixpoint foldM {A B : Type} (f : B -> A -> result B) (xs : list A) (acc : B)
  : result B :=
  match xs with
  | [] => Ok acc
  | x :: xs' => acc' <- f acc x ;; foldM f xs' acc'
  end.

(* ================================================================= *)
(** ** Python's [range] with a positive step *)

(** CPython computes the length of a range first and then indexes it:
    for [step > 0] the length is [ceil((stop - start) / step)], or 0 when
    [stop <= start]. *)
Definition range_len (start stop step : Z) : Z :=
  if start <? stop then (stop - start + step - 1) / step else 0.

Definition range (start stop step : Z) : list Z :=
  map (fun i => start + Z.of_nat i * step)
      (seq 0 (Z.to_nat (range_len start stop step))).

(** Ceiling of a quotient of positive integers. *)
Definition ceil_div (a b : Z) : Z := (a + b - 1) / b.

(* ================================================================= *)
(** ** Python strings: [str.strip] and [str.replace] *)

Definition is_space (c : ascii) : bool :=
  let n := nat_of_ascii c in
  ((9 <=? n) && (n <=? 13) || (28 <=? n) && (n <=? 32))%nat.

Fixpoint lstrip (s : string) : string :=
  match s with
  | String c s' => if is_space c then lstrip s' else s
  | EmptyString => EmptyString
  end.

Fixpoint rstrip (s : string) : string :=
  match s with
  | EmptyString => EmptyString
  | String c s' =>
      match rstrip s' with
      | EmptyString => if is_space c then EmptyString else String c EmptyString
      | t => String c t
      end
  end.

Definition strip (s : string) : string := rstrip (lstrip s).

(** [drop_prefix p s] is [Some rest] when [s = p ++ rest]. *)
Fixpoint drop_prefix (p s : string) : option string :=
  match p, s with
  | EmptyString, _ => Some s
  | String a p', String b s' =>
      if Ascii.eqb a b then drop_prefix p' s' else None
  | String _ _, EmptyString => None
  end.

(** [s.replace(old, new)] for a non-empty [old]: the occurrences are taken
    left to right and do not overlap.  The fuel is the length of [s]: each
    step consumes at least one character. *)
Fixpoint replace_fuel (fuel : nat) (old new s : string) : string :=
  match fuel with
  | O => s
  | S fuel' =>
      match s with
      | EmptyString => EmptyString
      | String c s' =>
          match drop_prefix old s with
          | Some rest => String.append new (replace_fuel fuel' old new rest)
          | None => String c (replace_fuel fuel' old new s')
          end
      end
  end.

Definition replace (old new s : string) : string :=
  replace_fuel (String.length s) old new s.

(** The downwards arrow U+2193 of the column label, as its UTF-8 bytes. *)
Definition arrow : string :=
  String (ascii_of_nat 226) (String (ascii_of_nat 134)
    (String (ascii_of_nat 147) EmptyString)).

(* ================================================================= *)
(** ** Decoded JSON *)

(** The Python object [response.json()] returns: [None], a bool, a number,
    a [str], a [list] or a [dict].  A dict is its list of items; a lookup
    takes the first item with the key (keys of a decoded dict are unique). *)
Inductive json : Type :=
| JNull
| JBool (b : bool)
| JNum (q : Q)
| JStr (s : string)
| JArr (items : list json)
| JObj (items : list (string * json)).

Fixpoint lookup {V : Type} (k : string) (d : list (string * V)) : option V :=
  match d with
  | [] => None
  | (k', v) :: d' => if String.eqb k k' then Some v else lookup k d'
  end.

(** [obj.get(key, default)]: only a dict has the method.  A key that is
    present with the value [None] yields [None], not the default. *)
Definition get (obj : json) (key : string) (default : json) : result json :=
  match obj with
  | JObj d =>
      Ok (match lookup key d with Some v => v | None => default end)
  | _ => Raise (AttributeError "get")
  end.

(** [for item in obj]: a list yields its elements, a dict its keys, a
    string its characters; the other values are not iterable. *)
Definition iter (obj : json) : result (list json) :=
  match obj with
  | JArr l => Ok l
  | JObj d => Ok (map (fun kv => JStr (fst kv)) d)
  | JStr s =>
      Ok (map (fun c => JStr (String c EmptyString)) (list_ascii_of_string s))
  | _ => Raise (TypeError "object is not iterable")
  end.

(* ================================================================= *)
(** ** The fetch loop (lines 32-64) *)

Definition total_results : Z := 271.
Definition count : Z := 20.

(** The keys of the [row] dict of lines 49-60, in order. *)
Definition raw_columns : list string :=
  [ "Name"; "Sub-Sector"; String.append arrow "Market Cap"; "Close Price";
    "1D Return"; "1M Return"; "6M Return"; "1Y Return";
    "Volatility vs Nifty"; "Expense Ratio" ].

(** One record of the page, lines 45-60. *)
Definition make_row (item : json) : result (list (string * json)) :=
  stock_info <- get item "stock" (JObj []) ;;
  ratios <- get stock_info "advancedRatios" (JObj []) ;;
  info <- get stock_info "info" (JObj []) ;;
  name <- get info "name" (JStr "") ;;
  subindustry <- get ratios "subindustry" (JStr "") ;;
  mrktCapf <- get ratios "mrktCapf" (JStr "NA") ;;
  lastPrice <- get ratios "lastPrice" (JStr "NA") ;;
  pr1d <- get ratios "pr1d" (JStr "NA") ;;
  w4pct <- get ratios "4wpct" (JStr "NA") ;;
  w26pct <- get ratios "26wpct" (JStr "NA") ;;
  w52pct <- get ratios "52wpct" (JStr "NA") ;;
  volN <- get ratios "12mVolN" (JStr "NA") ;;
  expenseRatio <- get ratios "expenseRatio" (JStr "NA") ;;
  Ok [ ("Name", name);
       ("Sub-Sector", subindustry);
       (String.append arrow "Market Cap", mrktCapf);
       ("Close Price", lastPrice);
       ("1D Return", pr1d);
       ("1M Return", w4pct);
       ("6M Return", w26pct);
       ("1Y Return", w52pct);
       ("Volatility vs Nifty", volN);
       ("Expense Ratio", expenseRatio) ].

(** Lines 43-61 for one page whose status is 200: the rows of the page, in
    the order of the results. *)
Definition page_rows (body : json) : result (list (list (string * json))) :=
  data <- get body "data" (JObj []) ;;
  results <- get data "results" (JArr []) ;;
  items <- iter results ;;
  foldM (fun acc item => row <- make_row item ;; Ok (acc ++ [row])) items [].

(** What [requests.post] can do: raise (no answer from the endpoint), or
    return a response with a status code and a body that is JSON or not. *)
Inductive outcome : Type :=
| NoResponse
| Response (status_code : Z) (body : option json).

(** [response.json()]. *)
Definition response_json (body : option json) : result json :=
  match body with
  | Some j => Ok j
  | None => Raise JSONDecodeError
  end.

(** What the loop does to the outside, in order. *)
Inductive event : Type :=
| EvPost (offset : Z)                    (* requests.post, line 40 *)
| EvError (offset : Z) (status_code : Z) (* st.error, line 63 *)
| EvSleep (seconds : Z).                 (* time.sleep, line 64 *)

(** The body of the [for] loop for the offsets left, from the rows
    gathered and the events emitted so far.  An exception ends the loop
    where it is raised. *)
Fixpoint fetch_loop (post : Z -> outcome) (offsets : list Z)
    (all_data : list (list (string * json))) (trace : list event)
  : list event * result (list (list (string * json))) :=
  match offsets with
  | [] => (trace, Ok all_data)
  | offset :: rest =>
      match post offset with
      | NoResponse => (trace ++ [EvPost offset], Raise ConnectionError)
      | Response status_code body =>
          if status_code =? 200 then
            match (j <- response_json body ;; page_rows j) with
            | Ok rows =>
                fetch_loop post rest (all_data ++ rows)
                           (trace ++ [EvPost offset; EvSleep 1])
            | Raise e => (trace ++ [EvPost offset], Raise e)
            end
          else
            fetch_loop post rest all_data
                       (trace ++ [EvPost offset;
                                  EvError offset status_code;
                                  EvSleep 1])
      end
  end.

(** Lines 33-64. *)
Definition fetch_pages (post : Z -> outcome)
  : list event * result (list (list (string * json))) :=
  fetch_loop post (range 0 total_results count) [] [].

(** The offsets requested, in order. *)
Definition posts (trace : list event) : list Z :=
  flat_map (fun e => match e with EvPost o => [o] | _ => [] end) trace.

(* ================================================================= *)
(** ** pandas: frames, [dropna], [to_numeric] *)

(** A float64 that is not NaN. *)
Inductive number : Type :=
| Fin (q : Q)
| PosInf
| NegInf.

Definition number_leb (x y : number) : bool :=
  match x, y with
  | NegInf, _ => true
  | _, PosInf => true
  | Fin a, Fin b => Qle_bool a b
  | _, _ => false
  end.

(** A cell of a frame: a Python object as it was decoded, a float64, or
    NaN. *)
Inductive cell : Type :=
| Py (v : json)
| Float (x : number)
| NaN.

(** [isna]: [None] and NaN are the missing values. *)
Definition isna (c : cell) : bool :=
  match c with
  | Py JNull => true
  | NaN => true
  | _ => false
  end.

(** A frame: the column labels, and the rows in order, each with its index
    label and one cell per column. *)
Record frame : Type := {
  columns : list string;
  rows : list (nat * list cell)
}.

Definition add_key (seen : list string) (k : string) : list string :=
  if existsb (String.eqb k) seen then seen else seen ++ [k].

(** The column labels of [DataFrame(list of dicts)]: the keys in the order
    they first appear. *)
Definition all_keys (data : list (list (string * json))) : list string :=
  fold_left (fun seen d => fold_left add_key (map fst d) seen) data [].

Definition cell_of (d : list (string * json)) (k : string) : cell :=
  match lookup k d with
  | Some v => Py v
  | None => NaN
  end.

(** [pd.DataFrame(all_data)], line 66: a row per dict, labelled 0, 1, ...;
    no dict gives a frame with no column. *)
Definition DataFrame (data : list (list (string * json))) : frame :=
  let cols := all_keys data in
  {| columns := cols;
     rows := combine (seq 0 (List.length data))
                     (map (fun d => map (cell_of d) cols) data) |}.

(** [df.dropna(inplace=True)]: the rows with a missing value go, the others
    keep their order and their labels. *)
Definition dropna (df : frame) : frame :=
  {| columns := columns df;
     rows := filter (fun r => negb (existsb isna (snd r))) (rows df) |}.

(** Line 68, for one label. *)
Definition clean_label (s : string) : string :=
  replace " " "_" (replace arrow "" (strip s)).

(** Line 68.  On the frame of [pd.DataFrame([])], which has no column,
    what line 68 does depends on the pandas at hand: up to 1.5 the empty
    labels are an object index and [.str] goes through, as here, so that
    the run reaches line 74 and raises [KeyError] there; from 2.0 on they
    are a [RangeIndex] and [.str] raises [AttributeError] at line 68
    already.  [fetch_etf_data] raises either way, and the two agree on
    every frame with a column. *)
Definition rename_columns (df : frame) : frame :=
  {| columns := map clean_label (columns df); rows := rows df |}.

Definition numeric_cols : list string :=
  [ "Market_Cap"; "Close_Price"; "1D_Return"; "1M_Return";
    "6M_Return"; "1Y_Return"; "Volatility_vs_Nifty"; "Expense_Ratio" ].

Fixpoint index_of (col : string) (cols : list string) : option nat :=
  match cols with
  | [] => None
  | c :: cols' =>
      if String.eqb col c then Some O
      else option_map S (index_of col cols')
  end.

(** [df[col]]: the cells of the column, in row order. *)
Definition getitem (df : frame) (col : string) : result (list cell) :=
  match index_of col (columns df) with
  | Some i => Ok (map (fun r => nth i (snd r) NaN) (rows df))
  | None => Raise (KeyError col)
  end.

Fixpoint set_nth {A : Type} (i : nat) (v : A) (l : list A) : list A :=
  match i, l with
  | _, [] => []
  | O, _ :: l' => v :: l'
  | S i', x :: l' => x :: set_nth i' v l'
  end.

(** [df[col] = values] for values computed from a column of [df] itself,
    which have the rows' labels: an existing column is overwritten, a new
    label adds a column on the right. *)
Definition setitem (df : frame) (col : string) (values : list cell) : frame :=
  match index_of col (columns df) with
  | Some i =>
      {| columns := columns df;
         rows := map (fun rv => (fst (fst rv), set_nth i (snd rv) (snd (fst rv))))
                     (combine (rows df) values) |}
  | None =>
      {| columns := columns df ++ [col];
         rows := map (fun rv => (fst (fst rv), snd (fst rv) ++ [snd rv]))
                     (combine (rows df) values) |}
  end.

Definition Q_of_bool (b : bool) : Q := if b then 1%Q else 0%Q.

Section Normalize.

(** pandas' conversion of a string to a float64: [None] when the string
    does not read as a number (or reads as NaN). *)
Variable str_to_float : string -> option number.

(** [pd.to_numeric(..., errors='coerce')] on one cell: numbers stay, a
    bool is its number, a string is parsed, and what cannot be converted
    becomes NaN. *)
Definition to_numeric_cell (c : cell) : cell :=
  match c with
  | Py JNull => NaN
  | Py (JBool b) => Float (Fin (Q_of_bool b))
  | Py (JNum q) => Float (Fin q)
  | Py (JStr s) =>
      match str_to_float s with
      | Some x => Float x
      | None => NaN
      end
  | Py (JArr _) => NaN
  | Py (JObj _) => NaN
  | Float x => Float x
  | NaN => NaN
  end.

Definition to_numeric (values : list cell) : list cell :=
  map to_numeric_cell values.

(** Lines 73-74. *)
Definition coerce_columns (df : frame) : result frame :=
  foldM (fun df col =>
           values <- getitem df col ;;
           Ok (setitem df col (to_numeric values)))
        numeric_cols df.

(** Lines 67-76, on the frame of line 66. *)
Definition normalize_frame (df : frame) : result frame :=
  let df := dropna df in
  let df := rename_columns df in
  df <- coerce_columns df ;;
  Ok (dropna df).

(** Lines 66-76. *)
Definition normalize (all_data : list (list (string * json)))
  : result frame :=
  normalize_frame (DataFrame all_data).

(** [fetch_etf_data]: the events of the run and what it returns or
    raises. *)
Definition fetch_etf_data (post : Z -> outcome)
  : list event * result frame :=
  let (trace, fetched) := fetch_pages post in
  (trace, all_data <- fetched ;; normalize all_data).

End Normalize.

(* ================================================================= *)
(** ** View selection (lines 94-146) *)

Definition metric_map : list (string * string) :=
  [ ("1 Day Return", "1D_Return");
    ("30 Day Return", "1M_Return");
    ("6 Month Return", "6M_Return");
    ("1 Year Return", "1Y_Return") ].

(** [metric_map[selected_metric_label]], line 105. *)
Definition metric_col (selected_metric_label : string) : result string :=
  match lookup selected_metric_label metric_map with
  | Some c => Ok c
  | None => Raise (KeyError selected_metric_label)
  end.

(** [st.slider(label, min_value, max_value, value)] on integers.  Streamlit
    widens the bounds so that they hold [value]; the widget returns [value]
    until the user moves the handle ([ui = None]) and from then on the
    position chosen, which lies on the track. *)
Definition slider (min_value max_value value : Z) (ui : option Z) : Z :=
  let lo := Z.min min_value max_value in
  let hi := Z.max lo max_value in
  let lo := Z.min value lo in
  let hi := Z.max value hi in
  match ui with
  | None => value
  | Some v => Z.max lo (Z.min hi v)
  end.

Definition len (df : frame) : Z := Z.of_nat (List.length (rows df)).

(** Line 107. *)
Definition top_n (df : frame) (ui : option Z) : Z :=
  slider 10 (len df) 50 ui.

(** [df.head(n)]: the first [n] rows; all but the last [-n] for [n < 0]. *)
Definition head (n : Z) (df : frame) : frame :=
  {| columns := columns df;
     rows := if 0 <=? n then firstn (Z.to_nat n) (rows df)
             else firstn (List.length (rows df) - Z.to_nat (- n)) (rows df) |}.

(** The order [sort_values] puts the cells of a float column in: NaN comes
    last whatever the direction. *)
Definition cell_leb (ascending : bool) (c1 c2 : cell) : bool :=
  match c1, c2 with
  | Float x, Float y => if ascending then number_leb x y else number_leb y x
  | Float _, _ => true
  | _, Float _ => false
  | _, _ => true
  end.

Definition row_leb (i : nat) (ascending : bool) (r1 r2 : nat * list cell)
  : bool :=
  cell_leb ascending (nth i (snd r1) NaN) (nth i (snd r2) NaN).

(** [series.min()] and [series.max()] of a float column: NaN is skipped,
    and is the answer when nothing is left. *)
Definition series_min (values : list cell) : cell :=
  fold_left (fun acc c =>
               match acc, c with
               | Float a, Float x => if number_leb a x then acc else c
               | NaN, Float _ => c
               | _, _ => acc
               end) values NaN.

Definition series_max (values : list cell) : cell :=
  fold_left (fun acc c =>
               match acc, c with
               | Float a, Float x => if number_leb x a then acc else c
               | NaN, Float _ => c
               | _, _ => acc
               end) values NaN.

(** [series >= bound] and [series <= bound] on one cell of a float column:
    a comparison with NaN is false. *)
Definition cell_ge (c bound : cell) : bool :=
  match c, bound with
  | Float x, Float b => number_leb b x
  | _, _ => false
  end.

Definition cell_le (c bound : cell) : bool :=
  match c, bound with
  | Float x, Float b => number_leb x b
  | _, _ => false
  end.

(** Lines 124-127 and 143-146: the rows of the view inside both ranges.
    The ranges are what the sliders of lines 119-122 and 138-141 return;
    the sliders start at the span of their column over the view,
    [(series_min values, series_max values)]. *)
Definition range_filter (view : frame) (expense mcap : cell * cell)
  : result frame :=
  match index_of "Expense_Ratio" (columns view),
        index_of "Market_Cap" (columns view) with
  | Some e, Some m =>
      Ok {| columns := columns view;
            rows := filter (fun r =>
                      cell_ge (nth e (snd r) NaN) (fst expense)
                      && cell_le (nth e (snd r) NaN) (snd expense)
                      && cell_ge (nth m (snd r) NaN) (fst mcap)
                      && cell_le (nth m (snd r) NaN) (snd mcap))
                    (rows view) |}
  | None, _ => Raise (KeyError "Expense_Ratio")
  | _, None => Raise (KeyError "Market_Cap")
  end.

Section Views.

(** The sort behind [sort_values].  pandas sorts with numpy's quicksort
    unless told otherwise, and promises no order among rows with equal
    keys: all that is known of the result is that it is the rows again,
    in order of the key. *)
Variable sort_rows :
  (nat * list cell -> nat * list cell -> bool) ->
  list (nat * list cell) -> list (nat * list cell).

(** [df.sort_values(by=col, ascending=...)]. *)
Definition sort_values (df : frame) (by_ : string) (ascending : bool)
  : result frame :=
  match index_of by_ (columns df) with
  | Some i =>
      Ok {| columns := columns df;
            rows := sort_rows (row_leb i ascending) (rows df) |}
  | None => Raise (KeyError by_)
  end.

(** Lines 110 and 111. *)
Definition top_df (df : frame) (metric : string) (n : Z) : result frame :=
  sorted <- sort_values df metric false ;; Ok (head n sorted).

Definition under_df (df : frame) (metric : string) (n : Z) : result frame :=
  sorted <- sort_values df metric true ;; Ok (head n sorted).

End Views.

(** What a sort is known to do. *)
Definition sorts
    (sort_rows : (nat * list cell -> nat * list cell -> bool) ->
                 list (nat * list cell) -> list (nat * list cell)) : Prop :=
  forall le l,
    Permutation (sort_rows le l) l /\
    ((forall x y, le x y = true \/ le y x = true) ->
     (forall x y z, le x y = true -> le y z = true -> le x z = true) ->
     StronglySorted (fun x y => le x y = true) (sort_rows le l)).

(** A stable sort (insertion sort), one instance of [sorts]. *)
Fixpoint insert_row (le : nat * list cell -> nat * list cell -> bool)
    (x : nat * list cell) (l : list (nat * list cell))
  : list (nat * list cell) :=
  match l with
  | [] => [x]
  | y :: l' => if le x y then x :: l else y :: insert_row le x l'
  end.

Definition stable_sort (le : nat * list cell -> nat * list cell -> bool)
    (l : list (nat * list cell)) : list (nat * list cell) :=
  fold_right (insert_row le) [] l.

(* ================================================================= *)
(** ** What the loop is expected to emit *)

(** What one page adds to the trace and to the rows when the loop gets
    past it. *)
Definition page_events (post : Z -> outcome) (offset : Z) : list event :=
  match post offset with
  | NoResponse => [EvPost offset]
  | Response status_code _ =>
      if status_code =? 200 then [EvPost offset; EvSleep 1]
      else [EvPost offset; EvError offset status_code; EvSleep 1]
  end.

Definition page_data (post : Z -> outcome) (offset : Z)
  : list (list (string * json)) :=
  match post offset with
  | NoResponse => []
  | Response status_code body =>
      if status_code =? 200 then
        match (j <- response_json body ;; page_rows j) with
        | Ok rows => rows
        | Raise _ => []
        end
      else []
  end.

(** The endpoint answers every request, and every answer with status 200
    has a body of the shape lines 43-47 read. *)
Definition answered (post : Z -> outcome) (offsets : list Z) : bool :=
  forallb (fun offset =>
             match post offset with
             | NoResponse => false
             | Response status_code body =>
                 if status_code =? 200
                 then is_ok (j <- response_json body ;; page_rows j)
                 else true
             end) offsets.


(* ================================================================= *)
(** ** What normalization is expected to compute *)

(** A dict with the ten keys of lines 49-60, in order. *)
Definition is_row (d : list (string * json)) : Prop :=
  map fst d = raw_columns.

(** The labels of line 68. *)
Definition clean_columns : list string :=
  [ "Name"; "Sub-Sector"; "Market_Cap"; "Close_Price"; "1D_Return";
    "1M_Return"; "6M_Return"; "1Y_Return"; "Volatility_vs_Nifty";
    "Expense_Ratio" ].

(** The cells of the frame row made from a dict. *)
Definition raw_cells (d : list (string * json)) : list cell :=
  map (fun kv => Py (snd kv)) d.

(** The rows of the frame of line 66. *)
Definition raw_rows (data : list (list (string * json)))
  : list (nat * list cell) :=
  combine (seq 0 (List.length data)) (map raw_cells data).

(** The test of [dropna] on one row. *)
Definition complete (r : nat * list cell) : bool :=
  negb (existsb isna (snd r)).

(** Lines 73-74 on one row: the two text columns stay, the eight others
    are converted. *)
Definition coerce_row (str_to_float : string -> option number)
    (r : nat * list cell) : nat * list cell :=
  (fst r,
   firstn 2 (snd r) ++ map (to_numeric_cell str_to_float) (skipn 2 (snd r))).

Definition first_pass (data : list (list (string * json)))
  : list (nat * list cell) :=
  filter complete (raw_rows data).

Definition normalized_rows (str_to_float : string -> option number)
    (data : list (list (string * json))) : list (nat * list cell) :=
  filter complete (map (coerce_row str_to_float) (first_pass data)).

Definition is_float (c : cell) : bool :=
  match c with Float _ => true | _ => false end.

(** The fields of a record of the response: the dict of the record they
    are read from, and their key there. *)
Definition fields : list (string * string) :=
  [ ("info", "name");
    ("advancedRatios", "subindustry");
    ("advancedRatios", "mrktCapf");
    ("advancedRatios", "lastPrice");
    ("advancedRatios", "pr1d");
    ("advancedRatios", "4wpct");
    ("advancedRatios", "26wpct");
    ("advancedRatios", "52wpct");
    ("advancedRatios", "12mVolN");
    ("advancedRatios", "expenseRatio") ].

Definition numeric_fields : list (string * string) := skipn 2 fields.

(** What the response holds for a field of a record: [Some v] when the key
    is there with the value [v], [None] when the key is not there. *)
Definition field (item : json) (f : string * string) : result (option json) :=
  stock_info <- get item "stock" (JObj []) ;;
  part <- get stock_info (fst f) (JObj []) ;;
  match part with
  | JObj d => Ok (lookup (snd f) d)
  | _ => Raise (AttributeError "get")
  end.

(* ================================================================= *)
(** ** What the views are expected to be *)

(** A table [fetch_etf_data] can return. *)
Definition normalized (df : frame) : Prop :=
  exists str_to_float data,
    Forall is_row data /\ normalize str_to_float data = Ok df.

(** A row of ten cells whose eight last cells are floats. *)
Definition numeric_row (r : nat * list cell) : Prop :=
  List.length (snd r) = 10%nat
  /\ forallb is_float (skipn 2 (snd r)) = true.

(** A frame with the columns of the table, numeric rows and no label
    twice. *)
Definition numeric_frame (df : frame) : Prop :=
  columns df = clean_columns
  /\ Forall numeric_row (rows df)
  /\ NoDup (map fst (rows df)).

(** No two rows have the same value in column [i]. *)
Definition no_ties (i : nat) (rs : list (nat * list cell)) : Prop :=
  forall r1 r2,
    In r1 rs -> In r2 rs ->
    row_leb i true r1 r2 = true -> row_leb i true r2 r1 = true ->
    r1 = r2.

(** The two views have no row in common. *)
Definition disjoint (view1 view2 : frame) : Prop :=
  forall r1 r2,
    In r1 (rows view1) -> In r2 (rows view2) -> fst r1 <> fst r2.

(** [no_ties], as a test: rows with the same value have the same label. *)
Definition no_ties_check (i : nat) (rs : list (nat * list cell)) : bool :=
  forallb (fun r1 =>
             forallb (fun r2 =>
                        implb (row_leb i true r1 r2 && row_leb i true r2 r1)
                              (Nat.eqb (fst r1) (fst r2)))
                     rs)
          rs.

(* ================================================================= *)
(** ** Sample inputs *)

(** A reader of plain decimals ([-12], [0.59]), one possible
    [str_to_float]: whatever else it is given does not read as a number. *)
Definition digit (c : ascii) : option Z :=
  let n := nat_of_ascii c in
  if ((48 <=? n) && (n <=? 57))%nat then Some (Z.of_nat n - 48) else None.

Fixpoint scan (s : string) (mantissa : Z) (scale : option positive)
    (seen : bool) : option (Z * positive) :=
  match s with
  | EmptyString =>
      if seen
      then Some (mantissa, match scale with Some p => p | None => 1%positive end)
      else None
  | String c s' =>
      if Ascii.eqb c "."%char then
        match scale with
        | None => scan s' mantissa (Some 1%positive) seen
        | Some _ => None
        end
      else
        match digit c with
        | Some d =>
            scan s' (10 * mantissa + d) (option_map (Pos.mul 10) scale) true
        | None => None
        end
  end.

Definition decimal_to_float (s : string) : option number :=
  match s with
  | String "-"%char s' =>
      match scan s' 0 None false with
      | Some (m, p) => Some (Fin (- m # p))
      | None => None
      end
  | _ =>
      match scan s 0 None false with
      | Some (m, p) => Some (Fin (m # p))
      | None => None
      end
  end.

(** A record of the response. *)
Definition etf (name : string) (ratios : list (string * json)) : json :=
  JObj [ ("stock",
          JObj [ ("info", JObj [ ("name", JStr name) ]);
                 ("advancedRatios", JObj ratios) ]) ].

Definition page (items : list json) : option json :=
  Some (JObj [ ("data", JObj [ ("results", JArr items) ]) ]).

Definition gold_ratios : list (string * json) :=
  [ ("subindustry", JStr "E_G"); ("mrktCapf", JNum (1250 # 1));
    ("lastPrice", JNum (6150 # 100)); ("pr1d", JNum (4 # 10));
    ("4wpct", JNum (21 # 10)); ("26wpct", JNum (98 # 10));
    ("52wpct", JNum (184 # 10)); ("12mVolN", JNum (7 # 10));
    ("expenseRatio", JNum (59 # 100)) ].

(** As [gold_ratios], without a market capitalization. *)
Definition no_mcap_ratios : list (string * json) :=
  [ ("subindustry", JStr "E_D"); ("lastPrice", JNum (1000 # 1));
    ("pr1d", JNum (1 # 100)); ("4wpct", JNum (5 # 10));
    ("26wpct", JNum (34 # 10)); ("52wpct", JNum (69 # 10));
    ("12mVolN", JNum (1 # 10)); ("expenseRatio", JNum (25 # 100)) ].

(** As [gold_ratios], with a price that is an explicit null. *)
Definition null_price_ratios : list (string * json) :=
  [ ("subindustry", JStr "E_Q"); ("mrktCapf", JNum (310 # 1));
    ("lastPrice", JNull); ("pr1d", JNum (-3 # 10));
    ("4wpct", JNum (-11 # 10)); ("26wpct", JNum (42 # 10));
    ("52wpct", JNum (120 # 10)); ("12mVolN", JNum (11 # 10));
    ("expenseRatio", JNum (35 # 100)) ].

(** An endpoint that refuses every request. *)
Definition post_refused (offset : Z) : outcome := Response 500 None.

(** An endpoint whose first page holds three records, whose second page
    fails and whose other pages are empty. *)
Definition post_sample (offset : Z) : outcome :=
  if offset =? 0 then
    Response 200 (page [ etf "Gold ETF" gold_ratios;
                         etf "Liquid ETF" no_mcap_ratios;
                         etf "Nifty ETF" null_price_ratios ])
  else if offset =? 20 then Response 503 None
  else Response 200 (page []).

(** The row dicts of the three records of [post_sample]. *)
Definition row_of (item : json) : list (string * json) :=
  match make_row item with
  | Ok d => d
  | Raise _ => []
  end.

Definition gold_row : list (string * json) :=
  row_of (etf "Gold ETF" gold_ratios).

Definition liquid_row : list (string * json) :=
  row_of (etf "Liquid ETF" no_mcap_ratios).

Definition nifty_row : list (string * json) :=
  row_of (etf "Nifty ETF" null_price_ratios).

Definition sample_data : list (list (string * json)) :=
  [ gold_row; liquid_row; nifty_row ].

(** The table [normalize] returns for [sample_data]: the first record
    alone. *)
Definition sample_table : frame :=
  {| columns := clean_columns;
     rows := [ (0%nat,
                [ Py (JStr "Gold ETF"); Py (JStr "E_G");
                  Float (Fin (1250 # 1)); Float (Fin (6150 # 100));
                  Float (Fin (4 # 10)); Float (Fin (21 # 10));
                  Float (Fin (98 # 10)); Float (Fin (184 # 10));
                  Float (Fin (7 # 10)); Float (Fin (59 # 100)) ]) ] |}.

(** Two hundred records with different one-year returns (0, 1, ..., 199)
    and the table made from them. *)
Definition ranked_ratios (i : nat) : list (string * json) :=
  [ ("subindustry", JStr "E_Q");
    ("mrktCapf", JNum (1000 + Z.of_nat i # 1));
    ("lastPrice", JNum (250 # 1)); ("pr1d", JNum (1 # 10));
    ("4wpct", JNum (12 # 10)); ("26wpct", JNum (57 # 10));
    ("52wpct", JNum (Z.of_nat i # 1)); ("12mVolN", JNum (9 # 10));
    ("expenseRatio", JNum (1 + Z.of_nat (i mod 7) # 100)) ].

Definition ranked_data : list (list (string * json)) :=
  map (fun i => row_of (etf "Index ETF" (ranked_ratios i))) (seq 0 200).

Definition ranked_table : frame :=
  {| columns := clean_columns;
     rows := normalized_rows decimal_to_float ranked_data |}.

(** Thirty of these records, and the table made from them. *)
Definition short_data : list (list (string * json)) :=
  map (fun i => row_of (etf "Index ETF" (ranked_ratios i))) (seq 0 30).

Definition short_table : frame :=
  {| columns := clean_columns;
     rows := normalized_rows decimal_to_float short_data |}.

(** Two hundred times the same record, and the table made from them. *)
Definition tied_data : list (list (string * json)) :=
  map (fun _ => gold_row) (seq 0 200).

Definition tied_table : frame :=
  {| columns := clean_columns;
     rows := normalized_rows decimal_to_float tied_data |}.

(** The cells every row of [tied_table] has. *)
Definition gold_cells : list cell :=
  snd (coerce_row decimal_to_float (0%nat, raw_cells gold_row)).

Definition view_of (r : result frame) : frame :=
  match r with
  | Ok view => view
  | Raise _ => {| columns := []; rows := [] |}
  end.

(** The top 50 of [ranked_table] by one-year return. *)
Definition ranked_top : frame :=
  view_of (top_df stable_sort ranked_table "1Y_Return" 50).

(** The two views of [tied_table] when tied rows stay in table order. *)
Definition tied_top : frame :=
  view_of (top_df stable_sort tied_table "1Y_Return" 50).

Definition tied_under : frame :=
  view_of (under_df stable_sort tied_table "1Y_Return" 50).

(* ================================================================= *)
(** ** The request payload (lines 16-29 and 38-39) *)

Definition payload_template : list (string * json) :=
  [ ("match",
     JObj [ ("subindustry", JArr [ JStr "E_G"; JStr "E_Q"; JStr "E_D" ]) ]);
    ("sortBy", JStr "mrktCapf");
    ("sortOrder", JNum (-1 # 1));
    ("project",
     JArr [ JStr "subindustry"; JStr "mrktCapf"; JStr "lastPrice";
            JStr "pr1d"; JStr "4wpct"; JStr "26wpct"; JStr "52wpct";
            JStr "12mVolN"; JStr "expenseRatio" ]);
    ("offset", JNum (0 # 1));
    ("count", JNum (20 # 1));
    ("sids", JArr []) ].

(** [d[key] = value] on a dict: a key that is there keeps its place, a new
    key goes to the end. *)
Fixpoint dict_set (key : string) (value : json) (d : list (string * json))
  : list (string * json) :=
  match d with
  | [] => [(key, value)]
  | (k, v) :: d' =>
      if String.eqb key k then (key, value) :: d'
      else (k, v) :: dict_set key value d'
  end.

(** Lines 38-39: a copy of the template with the offset of the page.  The
    copy is a new dict, the template stays as it is. *)
Definition payload (offset : Z) : list (string * json) :=
  dict_set "offset" (JNum (inject_Z offset)) payload_template.

(* ================================================================= *)
(** ** How a page can end the run *)

(** The exception lines 40-47 raise for a page, if any. *)
Definition page_raises (post : Z -> outcome) (offset : Z) : option exn :=
  match post offset with
  | NoResponse => Some ConnectionError
  | Response status_code body =>
      if status_code =? 200 then
        match (j <- response_json body ;; page_rows j) with
        | Ok _ => None
        | Raise e => Some e
        end
      else None
  end.

(* ================================================================= *)
(** ** One run of the script (lines 81-94) *)

(** What a run shows below the button. *)
Inductive shown : Type :=
| PleaseFetch              (* st.warning and st.stop, lines 91-92 *)
| Dashboard (df : frame).  (* the views of lines 94-149 *)

(** A run of the script from the stored table [etf_data] (what
    [st.session_state.etf_data] holds, [None] at first), with the button
    pressed or not: the events of the run, the table stored when the run
    ends, and what the run shows or the exception that ends it.  An
    exception of [fetch_etf_data] leaves the assignment of line 86 undone. *)
Definition run_script (str_to_float : string -> option number)
    (post : Z -> outcome) (etf_data : option frame) (pressed : bool)
  : list event * option frame * result shown :=
  let show (stored : option frame) : result shown :=
    match stored with
    | None => Ok PleaseFetch
    | Some df => Ok (Dashboard df)
    end in
  if pressed then
    let (trace, fetched) := fetch_etf_data str_to_float post in
    match fetched with
    | Ok df => (trace, Some df, show (Some df))
    | Raise e => (trace, etf_data, Raise e)
    end
  else ([], etf_data, show etf_data).

(* ================================================================= *)
(** ** More sample inputs *)

(** An endpoint whose first page holds one record and whose second page
    has status 200 and a body that is not JSON. *)
Definition post_garbled (offset : Z) : outcome :=
  if offset =? 0 then Response 200 (page [ etf "Gold ETF" gold_ratios ])
  else if offset =? 20 then Response 200 None
  else Response 200 (page []).

(** An endpoint whose pages all have status 200 and no record. *)
Definition post_empty (offset : Z) : outcome := Response 200 (page []).
(* ================================================================= *)
(** * Properties of the fetch loop *)

Lemma range_offsets :
  range 0 total_results count =
  [0; 20; 40; 60; 80; 100; 120; 140; 160; 180; 200; 220; 240; 260].
Proof. reflexivity. Qed.

Lemma range_length (start stop step : Z) :
  List.length (range start stop step) = Z.to_nat (range_len start stop step).
Proof. unfold range. now rewrite length_map, length_seq. Qed.

(** For a positive page size the number of pages is the ceiling of the
    quotient. *)
Lemma range_len_ceil (total size : Z) :
  0 < total -> 0 < size -> range_len 0 total size = ceil_div total size.
Proof.
  intros Ht Hs. unfold range_len, ceil_div.
  destruct (Z.ltb_spec 0 total) as [_ | H]; [ | lia ].
  f_equal. lia.
Qed.

(** Every offset of a range lies below the stop. *)
Lemma range_below (start stop step offset : Z) :
  0 < step -> In offset (range start stop step) -> start <= offset < stop.
Proof.
  intros Hs Hin. unfold range in Hin.
  apply in_map_iff in Hin. destruct Hin as [i [<- Hi]].
  apply in_seq in Hi. unfold range_len in Hi.
  destruct (Z.ltb_spec start stop) as [Hlt | Hge]; [ | simpl in Hi; lia ].
  assert (Hq : 0 <= (stop - start + step - 1) / step)
    by (apply Z.div_pos; lia).
  assert (Hi' : Z.of_nat i < (stop - start + step - 1) / step) by lia.
  assert (Hm : step * ((stop - start + step - 1) / step)
               <= stop - start + step - 1)
    by (apply Z.mul_div_le; lia).
  nia.
Qed.

Lemma posts_app (t1 t2 : list event) : posts (t1 ++ t2) = posts t1 ++ posts t2.
Proof. unfold posts. apply flat_map_app. Qed.

Lemma posts_page_events (post : Z -> outcome) (offsets : list Z) :
  posts (flat_map (page_events post) offsets) = offsets.
Proof.
  induction offsets as [ | o os IH ]; [ reflexivity | ].
  cbn [flat_map]. rewrite posts_app, IH.
  unfold page_events.
  destruct (post o) as [ | st body ]; [ reflexivity | ].
  destruct (st =? 200); reflexivity.
Qed.

(** When every request is answered in the expected shape, the loop goes
    through all the offsets: page after page, it adds the page's events
    and the page's rows. *)
Lemma fetch_loop_answered (post : Z -> outcome) (offsets : list Z) :
  answered post offsets = true ->
  forall all_data trace,
    fetch_loop post offsets all_data trace =
    (trace ++ flat_map (page_events post) offsets,
     Ok (all_data ++ flat_map (page_data post) offsets)).
Proof.
  induction offsets as [ | o os IH ]; intros Hans all_data trace.
  - cbn. now rewrite !app_nil_r.
  - cbn [answered forallb] in Hans. apply andb_prop in Hans.
    destruct Hans as [Ho Hos].
    cbn [fetch_loop flat_map]. unfold page_events, page_data.
    destruct (post o) as [ | st body ]; [ discriminate | ].
    destruct (st =? 200).
    + destruct (j <- response_json body ;; page_rows j) as [ rs | e ];
        [ | discriminate ].
      rewrite (IH Hos). now rewrite <- !app_assoc.
    + rewrite (IH Hos). rewrite <- !app_assoc. now rewrite app_nil_l.
Qed.

(** When no page has status 200 nothing is gathered. *)
Lemma page_data_failed (post : Z -> outcome) (offsets : list Z) :
  (forall offset, In offset offsets ->
     exists status_code body,
       post offset = Response status_code body /\ status_code <> 200) ->
  answered post offsets = true /\ flat_map (page_data post) offsets = [].
Proof.
  induction offsets as [ | o os IH ]; intros H; [ now split | ].
  destruct (H o (or_introl eq_refl)) as [st [body [Hp Hst]]].
  destruct IH as [Ha Hd]; [ intros; apply H; now right | ].
  apply Z.eqb_neq in Hst.
  split.
  - cbn [answered forallb]. rewrite Hp, Hst. exact Ha.
  - cbn [flat_map]. unfold page_data at 1. rewrite Hp, Hst. exact Hd.
Qed.

(** Whatever the endpoint does, the offsets requested are the first ones
    of the offsets the loop goes over, in order. *)
Lemma fetch_loop_posts_prefix (post : Z -> outcome) (offsets : list Z) :
  forall all_data trace,
    exists k,
      posts (fst (fetch_loop post offsets all_data trace))
      = posts trace ++ firstn k offsets.
Proof.
  induction offsets as [ | o os IH ]; intros all_data trace.
  - exists 0%nat. cbn. now rewrite app_nil_r.
  - cbn [fetch_loop].
    destruct (post o) as [ | st body ].
    + exists 1%nat. cbn [fst firstn]. now rewrite posts_app.
    + destruct (st =? 200).
      * destruct (j <- response_json body ;; page_rows j) as [ rs | e ].
        -- destruct (IH (all_data ++ rs) (trace ++ [EvPost o; EvSleep 1]))
             as [k Hk].
           exists (S k). rewrite Hk, posts_app. cbn [firstn].
           now rewrite <- app_assoc.
        -- exists 1%nat. cbn [fst firstn]. now rewrite posts_app.
      * destruct (IH all_data
                    (trace ++ [EvPost o; EvError o st; EvSleep 1]))
          as [k Hk].
        exists (S k). rewrite Hk, posts_app. cbn [firstn].
        now rewrite <- app_assoc.
Qed.

(* ================================================================= *)
(** * Properties of normalization *)

Lemma clean_columns_eq : map clean_label raw_columns = clean_columns.
Proof. vm_compute. reflexivity. Qed.

Lemma clean_columns_fixed : map clean_label clean_columns = clean_columns.
Proof. vm_compute. reflexivity. Qed.

(** A row dict spelled out. *)
Lemma is_row_inv [d : list (string * json)] :
  is_row d ->
  exists v0 v1 v2 v3 v4 v5 v6 v7 v8 v9,
    d = [ ("Name", v0); ("Sub-Sector", v1);
          (String.append arrow "Market Cap", v2); ("Close Price", v3);
          ("1D Return", v4); ("1M Return", v5); ("6M Return", v6);
          ("1Y Return", v7); ("Volatility vs Nifty", v8);
          ("Expense Ratio", v9) ].
Proof.
  unfold is_row, raw_columns. intros H.
  do 10 (destruct d as [ | [? ?] d ]; [ discriminate | ]).
  destruct d; [ | discriminate ].
  cbn [map fst] in H. injection H. intros. subst.
  repeat eexists.
Qed.

Lemma make_row_is_row (item : json) (d : list (string * json)) :
  make_row item = Ok d -> is_row d.
Proof.
  unfold make_row, bind. intros H.
  repeat match type of H with
         | context [get ?a ?k ?v] => destruct (get a k v); [ | discriminate ]
         end.
  injection H as <-. reflexivity.
Qed.

Lemma page_rows_is_row (body : json) (rs : list (list (string * json))) :
  page_rows body = Ok rs -> Forall is_row rs.
Proof.
  unfold page_rows, bind.
  destruct (get body "data" (JObj [])) as [ data | ]; [ | discriminate ].
  destruct (get data "results" (JArr [])) as [ results | ]; [ | discriminate ].
  destruct (iter results) as [ items | ]; [ | discriminate ].
  assert (G : forall acc, Forall is_row acc ->
            foldM (fun acc item => row <- make_row item ;; Ok (acc ++ [row]))
                  items acc = Ok rs -> Forall is_row rs).
  { induction items as [ | item items IH ]; intros acc Hacc H.
    - cbn in H. now injection H as <-.
    - cbn [foldM] in H. unfold bind at 1 2 in H.
      destruct (make_row item) as [ row | ] eqn:Hrow; [ | discriminate ].
      apply (IH (acc ++ [row])); [ | exact H ].
      apply Forall_app. split; [ exact Hacc | ].
      constructor; [ | constructor ]. now apply make_row_is_row with item. }
  apply G. constructor.
Qed.

(** Whatever the endpoint does, the loop gathers row dicts only. *)
Lemma fetch_loop_is_row (post : Z -> outcome) (offsets : list Z) :
  forall all_data trace trace' fetched,
    Forall is_row all_data ->
    fetch_loop post offsets all_data trace = (trace', Ok fetched) ->
    Forall is_row fetched.
Proof.
  induction offsets as [ | o os IH ]; intros all_data trace trace' fetched Hd H.
  - cbn in H. now injection H as _ <-.
  - cbn [fetch_loop] in H.
    destruct (post o) as [ | st body ]; [ discriminate | ].
    destruct (st =? 200).
    + destruct (j <- response_json body ;; page_rows j) as [ rs | ] eqn:Hrs;
        [ | discriminate ].
      apply IH in H; [ exact H | ].
      apply Forall_app. split; [ exact Hd | ].
      unfold bind in Hrs. destruct (response_json body); [ | discriminate ].
      now apply page_rows_is_row in Hrs.
    + now apply IH in H.
Qed.

Lemma all_keys_rows [data : list (list (string * json))] :
  Forall is_row data -> data <> [] -> all_keys data = raw_columns.
Proof.
  intros Hd Hne. unfold all_keys.
  assert (G : forall ds, Forall is_row ds ->
            fold_left (fun seen d => fold_left add_key (map fst d) seen)
                      ds raw_columns = raw_columns).
  { induction ds as [ | d ds IH ]; intros H; [ reflexivity | ].
    inversion H as [ | ? ? Hrow Hrest ]; subst.
    cbn [fold_left]. rewrite Hrow.
    replace (fold_left add_key raw_columns raw_columns) with raw_columns
      by (vm_compute; reflexivity).
    now apply IH. }
  destruct data as [ | d ds ]; [ congruence | ].
  inversion Hd as [ | ? ? Hrow Hrest ]; subst.
  cbn [fold_left]. rewrite Hrow.
  replace (fold_left add_key raw_columns []) with raw_columns
    by (vm_compute; reflexivity).
  now apply G.
Qed.

Lemma cells_of_row (d : list (string * json)) :
  is_row d -> map (cell_of d) raw_columns = raw_cells d.
Proof.
  intros H. destruct (is_row_inv H)
    as (v0 & v1 & v2 & v3 & v4 & v5 & v6 & v7 & v8 & v9 & ->).
  vm_compute. reflexivity.
Qed.

(** The frame of line 66 when something was fetched. *)
Lemma DataFrame_rows [data : list (list (string * json))] :
  Forall is_row data -> data <> [] ->
  DataFrame data = {| columns := raw_columns; rows := raw_rows data |}.
Proof.
  intros Hd Hne. unfold DataFrame, raw_rows.
  rewrite (all_keys_rows Hd Hne). f_equal. f_equal.
  apply map_ext_in. intros d Hin.
  apply cells_of_row. rewrite Forall_forall in Hd. now apply Hd.
Qed.

Lemma raw_cells_length (d : list (string * json)) :
  is_row d -> List.length (raw_cells d) = 10%nat.
Proof.
  intros H. unfold raw_cells. rewrite length_map.
  rewrite <- (length_map fst). rewrite H. reflexivity.
Qed.

Lemma in_combine_seq {A : Type} (l : list A) (start i : nat) (x : A) :
  In (i, x) (combine (seq start (List.length l)) l) <->
  (start <= i)%nat /\ nth_error l (i - start) = Some x.
Proof.
  revert start. induction l as [ | a l IH ]; intros start; cbn [List.length seq combine].
  - split; [ intros [] | ]. intros [_ H]. now destruct (i - start)%nat.
  - cbn [In]. rewrite IH. split.
    + intros [H | [Hle H]].
      * injection H as <- <-. split; [ lia | ].
        now rewrite Nat.sub_diag.
      * split; [ lia | ].
        replace (i - start)%nat with (S (i - S start)) by lia. exact H.
    + intros [Hle H].
      destruct (Nat.eq_dec i start) as [-> | Hne].
      * left. rewrite Nat.sub_diag in H. cbn in H. now injection H as <-.
      * right. split; [ lia | ].
        replace (i - start)%nat with (S (i - S start)) in H by lia. exact H.
Qed.

Lemma raw_rows_length (data : list (list (string * json))) :
  Forall is_row data ->
  Forall (fun r => List.length (snd r) = 10%nat) (raw_rows data).
Proof.
  intros Hd. apply Forall_forall. intros [i cells] Hin.
  unfold raw_rows in Hin. apply in_combine_r in Hin.
  apply in_map_iff in Hin. destruct Hin as [d [<- Hin]].
  apply raw_cells_length. rewrite Forall_forall in Hd. now apply Hd.
Qed.

Lemma map_combine_self {A B C : Type} (f : A -> B) (g : A * B -> C)
    (l : list A) :
  map g (combine l (map f l)) = map (fun a => g (a, f a)) l.
Proof. induction l as [ | a l IH ]; cbn; [ reflexivity | now rewrite IH ]. Qed.

Section NormalizeLemmas.

Variable str_to_float : string -> option number.

Let num := to_numeric_cell str_to_float.

(** One turn of the loop of lines 73-74 on a column that is there. *)
Lemma coerce_step (cols : list string) (rs : list (nat * list cell))
    (col : string) (i : nat) :
  index_of col cols = Some i ->
  (values <- getitem {| columns := cols; rows := rs |} col ;;
   Ok (setitem {| columns := cols; rows := rs |} col
               (to_numeric str_to_float values)))
  = Ok {| columns := cols;
          rows := map (fun r => (fst r,
                                 set_nth i (num (nth i (snd r) NaN)) (snd r)))
                      rs |}.
Proof.
  intros Hi. unfold getitem, setitem, bind, to_numeric.
  cbn [columns rows]. rewrite Hi. f_equal. f_equal.
  rewrite map_map.
  exact (map_combine_self
           (fun r => num (nth i (snd r) NaN))
           (fun rv => (fst (fst rv), set_nth i (snd rv) (snd (fst rv)))) rs).
Qed.

Lemma coerce_columns_rows (rs : list (nat * list cell)) :
  Forall (fun r => List.length (snd r) = 10%nat) rs ->
  coerce_columns str_to_float {| columns := clean_columns; rows := rs |}
  = Ok {| columns := clean_columns;
          rows := map (coerce_row str_to_float) rs |}.
Proof.
  intros Hlen. unfold coerce_columns, numeric_cols. cbn [foldM].
  repeat (erewrite coerce_step by (vm_compute; reflexivity);
          unfold bind at 1).
  f_equal. f_equal. rewrite !map_map.
  apply map_ext_in. intros [lbl cells] Hin.
  rewrite Forall_forall in Hlen. specialize (Hlen _ Hin).
  cbn [snd] in Hlen. cbn [fst snd].
  do 10 (destruct cells as [ | ? cells ]; [ discriminate | ]).
  destruct cells; [ | discriminate ].
  reflexivity.
Qed.

Lemma filter_length10 (f : nat * list cell -> bool)
    (rs : list (nat * list cell)) :
  Forall (fun r => List.length (snd r) = 10%nat) rs ->
  Forall (fun r => List.length (snd r) = 10%nat) (filter f rs).
Proof.
  rewrite !Forall_forall. intros H r Hin.
  apply filter_In in Hin. now apply H.
Qed.

(** What [normalize] returns when something was fetched. *)
Lemma normalize_rows (data : list (list (string * json))) :
  Forall is_row data -> data <> [] ->
  normalize str_to_float data
  = Ok {| columns := clean_columns;
          rows := normalized_rows str_to_float data |}.
Proof.
  intros Hd Hne. unfold normalize, normalize_frame.
  rewrite (DataFrame_rows Hd Hne).
  unfold rename_columns. unfold dropna at 1 2. cbn [columns rows].
  rewrite clean_columns_eq.
  change (filter (fun r => negb (existsb isna (snd r))) (raw_rows data))
    with (first_pass data).
  rewrite coerce_columns_rows
    by (apply filter_length10; now apply raw_rows_length).
  unfold bind.
  reflexivity.
Qed.

(** With nothing fetched the frame has no column, and line 74 raises
    (where line 68 has not raised before it, see [rename_columns]). *)
Lemma normalize_nil :
  normalize str_to_float [] = Raise (KeyError "Market_Cap").
Proof. reflexivity. Qed.

Lemma num_idempotent (c : cell) : num (num c) = num c.
Proof.
  subst num. destruct c as [ [ | b | q | s | l | d ] | x | ]; cbn;
    try reflexivity.
  now destruct (str_to_float s).
Qed.

Lemma num_float_or_nan (c : cell) : is_float (num c) = true \/ num c = NaN.
Proof.
  subst num. destruct c as [ [ | b | q | s | l | d ] | x | ]; cbn; auto.
  destruct (str_to_float s); auto.
Qed.

Lemma complete_float (c : cell) : isna (num c) = false -> is_float (num c) = true.
Proof.
  intros H. destruct (num_float_or_nan c) as [Hf | Hn]; [ exact Hf | ].
  rewrite Hn in H. discriminate.
Qed.

(** A row of ten cells and its conversion, spelled out. *)
Lemma coerce_row_inv (r : nat * list cell) :
  List.length (snd r) = 10%nat ->
  exists l c0 c1 c2 c3 c4 c5 c6 c7 c8 c9,
    r = (l, [c0; c1; c2; c3; c4; c5; c6; c7; c8; c9])
    /\ coerce_row str_to_float r
       = (l, [c0; c1; num c2; num c3; num c4; num c5; num c6; num c7;
              num c8; num c9]).
Proof.
  destruct r as [l cells]. cbn [snd]. intros H.
  do 10 (destruct cells as [ | ? cells ]; [ discriminate | ]).
  destruct cells; [ | discriminate ].
  repeat eexists.
Qed.

Lemma coerce_row_idempotent (r : nat * list cell) :
  List.length (snd r) = 10%nat ->
  coerce_row str_to_float (coerce_row str_to_float r)
  = coerce_row str_to_float r.
Proof.
  intros H. destruct (coerce_row_inv r H)
    as (l & c0 & c1 & c2 & c3 & c4 & c5 & c6 & c7 & c8 & c9 & -> & _).
  unfold coerce_row. cbn [fst snd firstn skipn map app].
  fold num. now rewrite !num_idempotent.
Qed.

Lemma coerce_row_length (r : nat * list cell) :
  List.length (snd r) = 10%nat ->
  List.length (snd (coerce_row str_to_float r)) = 10%nat.
Proof.
  intros H. destruct (coerce_row_inv r H)
    as (l & c0 & c1 & c2 & c3 & c4 & c5 & c6 & c7 & c8 & c9 & -> & ->).
  reflexivity.
Qed.

(** Where a row of the table comes from. *)
Lemma normalized_rows_inv (data : list (list (string * json)))
    (r : nat * list cell) :
  Forall is_row data ->
  In r (normalized_rows str_to_float data) ->
  exists d,
    nth_error data (fst r) = Some d
    /\ complete (fst r, raw_cells d) = true
    /\ r = coerce_row str_to_float (fst r, raw_cells d)
    /\ complete r = true.
Proof.
  intros Hd Hin. unfold normalized_rows in Hin.
  apply filter_In in Hin. destruct Hin as [Hin Hc].
  apply in_map_iff in Hin. destruct Hin as [[i cells] [<- Hin]].
  unfold first_pass in Hin. apply filter_In in Hin.
  destruct Hin as [Hin Hc0].
  unfold raw_rows in Hin.
  rewrite <- (length_map raw_cells) in Hin.
  apply in_combine_seq in Hin. destruct Hin as [_ Hnth].
  rewrite Nat.sub_0_r in Hnth.
  rewrite nth_error_map in Hnth.
  destruct (nth_error data i) as [ d | ] eqn:Hi; [ | discriminate ].
  cbn in Hnth. injection Hnth as <-.
  exists d. cbn [fst coerce_row]. repeat split; assumption.
Qed.

(** Which rows of the fetched data are in the table. *)
Lemma normalized_rows_label (data : list (list (string * json)))
    (i : nat) (d : list (string * json)) :
  nth_error data i = Some d ->
  In i (map fst (normalized_rows str_to_float data)) <->
  complete (i, raw_cells d) = true
  /\ complete (coerce_row str_to_float (i, raw_cells d)) = true.
Proof.
  intros Hi. unfold normalized_rows, first_pass, raw_rows.
  assert (Hraw : In (i, raw_cells d)
                    (combine (seq 0 (List.length data)) (map raw_cells data))).
  { rewrite <- (length_map raw_cells).
    apply in_combine_seq. split; [ lia | ].
    rewrite Nat.sub_0_r, nth_error_map, Hi. reflexivity. }
  split.
  - intros Hin. apply in_map_iff in Hin. destruct Hin as [r [Hl Hin]].
    apply filter_In in Hin. destruct Hin as [Hin Hc].
    apply in_map_iff in Hin. destruct Hin as [[j cells] [<- Hin]].
    apply filter_In in Hin. destruct Hin as [Hin Hc0].
    cbn [fst coerce_row] in Hl. subst j.
    rewrite <- (length_map raw_cells) in Hin.
    apply in_combine_seq in Hin. destruct Hin as [_ Hnth].
    rewrite Nat.sub_0_r, nth_error_map, Hi in Hnth.
    cbn in Hnth. injection Hnth as <-. now split.
  - intros [Hc0 Hc]. apply in_map_iff.
    exists (coerce_row str_to_float (i, raw_cells d)).
    split; [ reflexivity | ].
    apply filter_In. split; [ | exact Hc ].
    apply in_map. apply filter_In. now split.
Qed.

(** Which rows of the fetched data are left by the first pass. *)
Lemma first_pass_label (data : list (list (string * json)))
    (i : nat) (d : list (string * json)) :
  nth_error data i = Some d ->
  (In (i, raw_cells d) (first_pass data) <->
   complete (i, raw_cells d) = true)
  /\ (In i (map fst (first_pass data)) <->
      complete (i, raw_cells d) = true).
Proof.
  intros Hi. unfold first_pass, raw_rows.
  assert (Hraw : In (i, raw_cells d)
                    (combine (seq 0 (List.length data)) (map raw_cells data))).
  { rewrite <- (length_map raw_cells).
    apply in_combine_seq. split; [ lia | ].
    rewrite Nat.sub_0_r, nth_error_map, Hi. reflexivity. }
  split.
  - rewrite filter_In. tauto.
  - split.
    + intros Hin. apply in_map_iff in Hin.
      destruct Hin as [[j cells] [Hl Hin]]. cbn [fst] in Hl. subst j.
      apply filter_In in Hin. destruct Hin as [Hin Hc].
      rewrite <- (length_map raw_cells) in Hin.
      apply in_combine_seq in Hin. destruct Hin as [_ Hnth].
      rewrite Nat.sub_0_r, nth_error_map, Hi in Hnth.
      cbn in Hnth. now injection Hnth as <-.
    + intros Hc. apply in_map_iff. exists (i, raw_cells d).
      split; [ reflexivity | ]. apply filter_In. now split.
Qed.

(** A string that does not read as a number, in one of the eight
    converted columns, makes the converted row incomplete. *)
Lemma unparsed_cell_incomplete (i : nat) (cells : list cell) (n : nat)
    (s : string) :
  List.length cells = 10%nat ->
  (2 <= n < 10)%nat ->
  nth n cells NaN = Py (JStr s) ->
  str_to_float s = None ->
  nth n (snd (coerce_row str_to_float (i, cells))) NaN = NaN
  /\ complete (coerce_row str_to_float (i, cells)) = false.
Proof.
  intros Hlen Hn Hcell Hs.
  do 10 (destruct cells as [ | ? cells ]; [ discriminate | ]).
  destruct cells; [ | discriminate ].
  destruct n as [ | [ | [ | [ | [ | [ | [ | [ | [ | [ | n ] ] ] ] ] ] ] ] ] ];
    try lia;
    cbn in Hcell; subst;
    unfold complete, coerce_row;
    cbn [fst snd firstn skipn map app nth existsb to_numeric_cell];
    rewrite Hs; cbn [isna]; rewrite ?orb_true_r; now split.
Qed.

End NormalizeLemmas.

(** What [make_row] puts in each cell: the value the response holds for the
    field, or the default of the field when the key is missing. *)
Lemma make_row_field (item : json) (d : list (string * json)) :
  make_row item = Ok d ->
  forall n f,
    nth_error fields n = Some f ->
    exists v,
      field item f = Ok v
      /\ nth n (raw_cells d) NaN
         = Py (match v with
               | Some x => x
               | None => JStr (if (n <? 2)%nat then "" else "NA")
               end).
Proof.
  unfold make_row, field. intros H n f Hf.
  destruct (get item "stock" (JObj [])) as [ stock_info | ];
    [ | discriminate ].
  unfold bind at 1 in H. unfold bind at 1.
  destruct (get stock_info "advancedRatios" (JObj [])) as [ ratios | ] eqn:Hr;
    [ | discriminate ].
  unfold bind at 1 in H.
  destruct (get stock_info "info" (JObj [])) as [ info | ] eqn:Hi;
    [ | discriminate ].
  unfold bind at 1 in H.
  destruct info as [ | | | | | dinfo ]; try discriminate.
  destruct ratios as [ | | | | | dratios ]; try discriminate.
  cbn [get bind] in H. injection H as <-.
  do 10 (destruct n as [ | n ];
         [ cbn in Hf; injection Hf as <-; cbn [fst snd];
           rewrite ?Hr, ?Hi; cbn [bind];
           eexists; split; [ reflexivity | ];
           cbn [raw_cells map nth snd Nat.ltb Nat.leb];
           match goal with
           | |- context [lookup ?k ?dd] => now destruct (lookup k dd)
           end
         | ]).
  destruct n; discriminate.
Qed.

(* ================================================================= *)
(** * The claims on the fetch loop *)

(** C1, as the code has it.  With the configured total of 271 records
    and page size of 20 the loop goes over ceil(271/20) = 14 offsets,
    0, 20, ..., 260 in increasing order, the last of which is below the
    total.  The page requests of a run are always the first ones of
    these, in this order, and they are all 14 when every request is
    answered: lines 40-47 catch no exception, so a request without an
    answer, or a body with status 200 that cannot be read, ends the run
    at that request. *)
Theorem fetch_issues_14_requests (post : Z -> outcome) :
  range 0 total_results count
    = [0; 20; 40; 60; 80; 100; 120; 140; 160; 180; 200; 220; 240; 260]
  /\ Z.of_nat (List.length (range 0 total_results count))
     = ceil_div total_results count
  /\ ceil_div total_results count = 14
  /\ last (range 0 total_results count) 0 = 260
  /\ 260 < total_results
  /\ (exists k,
        posts (fst (fetch_pages post))
        = firstn k (range 0 total_results count))
  /\ (answered post (range 0 total_results count) = true ->
      posts (fst (fetch_pages post))
        = [0; 20; 40; 60; 80; 100; 120; 140; 160; 180; 200; 220; 240; 260]
      /\ Z.of_nat (List.length (posts (fst (fetch_pages post))))
         = ceil_div total_results count
      /\ last (posts (fst (fetch_pages post))) 0 = 260).
Proof.
  split; [ reflexivity | ].
  split; [ reflexivity | ].
  split; [ reflexivity | ].
  split; [ reflexivity | ].
  split; [ reflexivity | ].
  split.
  - unfold fetch_pages.
    destruct (fetch_loop_posts_prefix post (range 0 total_results count) [] [])
      as [k Hk].
    exists k. exact Hk.
  - intros Hans. unfold fetch_pages.
    rewrite (fetch_loop_answered post _ Hans). cbn [fst app].
    rewrite posts_page_events, range_offsets.
    repeat split; reflexivity.
Qed.

Lemma fetch_issues_14_requests_witness :
  answered post_sample (range 0 total_results count) = true
  /\ posts (fst (fetch_pages post_sample))
     = [0; 20; 40; 60; 80; 100; 120; 140; 160; 180; 200; 220; 240; 260].
Proof.
  assert (Hans : answered post_sample (range 0 total_results count) = true)
    by (vm_compute; reflexivity).
  split; [ exact Hans | ].
  destruct (fetch_issues_14_requests post_sample)
    as (_ & _ & _ & _ & _ & _ & H).
  exact (proj1 (H Hans)).
Defined.

(** C1 as stated fails on a run that an exception ends: when the second
    page has status 200 and a body that is not JSON, [response.json()]
    raises at line 43 and the run has made two requests, not 14. *)
Lemma garbled_run_issues_two_requests :
  posts (fst (fetch_pages post_garbled)) = [0; 20]
  /\ List.length (posts (fst (fetch_pages post_garbled))) = 2%nat
  /\ posts (fst (fetch_pages post_garbled))
     <> [0; 20; 40; 60; 80; 100; 120; 140; 160; 180; 200; 220; 240; 260].
Proof.
  split; [ vm_compute; reflexivity | ].
  split; [ vm_compute; reflexivity | ].
  vm_compute. discriminate.
Qed.

(** C2, on the run the claim names: when every page request returns a
    status other than 200, no record is gathered, the frame of line 66 has
    no column, and [fetch_etf_data] raises [KeyError] at line 74 instead
    of returning an empty table. *)
Theorem all_pages_failed_raises (str_to_float : string -> option number)
    (post : Z -> outcome) :
  (forall offset, In offset (range 0 total_results count) ->
     exists status_code body,
       post offset = Response status_code body /\ status_code <> 200) ->
  snd (fetch_etf_data str_to_float post) = Raise (KeyError "Market_Cap").
Proof.
  intros Hfail. apply page_data_failed in Hfail. destruct Hfail as [Hans Hnil].
  unfold fetch_etf_data, fetch_pages.
  rewrite (fetch_loop_answered post _ Hans). rewrite Hnil.
  reflexivity.
Qed.

Lemma all_pages_failed_raises_witness :
  snd (fetch_etf_data decimal_to_float post_refused)
  = Raise (KeyError "Market_Cap").
Proof.
  apply (all_pages_failed_raises decimal_to_float post_refused).
  intros offset _. exists 500, None. split; [ reflexivity | lia ].
Defined.

(** C5, as the code has it.  A page whose status is not 200 never ends
    the loop: it adds one warning and the pause to the trace, nothing to
    the rows gathered, and the loop goes on with the offsets left,
    without a second request for the page.  In a run in which every
    request is answered, the loop requests every offset once, in order,
    whatever the statuses are, and each request is followed by the pause
    of one second.  (A request without an answer, or a body with status
    200 that cannot be read, ends the run by its exception, without the
    pause.) *)
Theorem failed_page_is_skipped (post : Z -> outcome) :
  (forall offset rest all_data trace status_code body,
     post offset = Response status_code body ->
     status_code <> 200 ->
     fetch_loop post (offset :: rest) all_data trace
     = fetch_loop post rest all_data
         (trace ++ [EvPost offset; EvError offset status_code; EvSleep 1]))
  /\ (answered post (range 0 total_results count) = true ->
      fetch_pages post
        = (flat_map (page_events post) (range 0 total_results count),
           Ok (flat_map (page_data post) (range 0 total_results count)))
      /\ posts (fst (fetch_pages post)) = range 0 total_results count
      /\ (forall offset status_code body,
            post offset = Response status_code body ->
            status_code <> 200 ->
            page_data post offset = []
            /\ page_events post offset
               = [EvPost offset; EvError offset status_code; EvSleep 1])
      /\ (forall offset status_code body,
            post offset = Response status_code body ->
            status_code = 200 ->
            page_events post offset = [EvPost offset; EvSleep 1])).
Proof.
  split.
  - intros offset rest all_data trace st body Hp Hst.
    apply Z.eqb_neq in Hst. cbn [fetch_loop]. now rewrite Hp, Hst.
  - intros Hans. unfold fetch_pages.
    rewrite (fetch_loop_answered post _ Hans). cbn [fst app].
    split; [ reflexivity | ].
    split; [ apply posts_page_events | ].
    split.
    + intros offset st body Hp Hst. apply Z.eqb_neq in Hst.
      unfold page_data, page_events. rewrite Hp, Hst. now split.
    + intros offset st body Hp ->.
      unfold page_events. rewrite Hp. reflexivity.
Qed.

Lemma failed_page_is_skipped_witness :
  answered post_sample (range 0 total_results count) = true
  /\ posts (fst (fetch_pages post_sample)) = range 0 total_results count
  /\ page_data post_sample 20 = []
  /\ page_events post_sample 20 = [EvPost 20; EvError 20 503; EvSleep 1].
Proof.
  assert (Hans : answered post_sample (range 0 total_results count) = true)
    by (vm_compute; reflexivity).
  split; [ exact Hans | ].
  destruct (failed_page_is_skipped post_sample) as [_ H].
  destruct (H Hans) as (_ & Hposts & Hfailed & _).
  split; [ exact Hposts | ].
  apply (Hfailed 20 503 None); [ reflexivity | lia ].
Defined.

(** C5 as stated fails on a run that an exception ends: when the second
    page has status 200 and a body that is not JSON, the request for it
    is the last event of the run.  No pause follows it, and the twelve
    offsets after it are never requested. *)
Lemma garbled_run_exits_early :
  fetch_pages post_garbled
  = ([EvPost 0; EvSleep 1; EvPost 20], Raise JSONDecodeError)
  /\ last (fst (fetch_pages post_garbled)) (EvSleep 1) = EvPost 20
  /\ ~ In 40 (posts (fst (fetch_pages post_garbled))).
Proof.
  split; [ vm_compute; reflexivity | ].
  split; [ vm_compute; reflexivity | ].
  vm_compute. intros [ H | [ H | [] ] ]; discriminate.
Qed.

(* ================================================================= *)
(** * The claims on normalization *)

(** C3.  Normalization is a drop, the conversion of the numeric columns,
    and a second drop, in this order.  A record without a null whose
    value in a numeric column is a string that does not read as a number
    (such as "NA" for the market capitalization) is still there after the
    first drop; the conversion makes the value NaN; the second drop
    removes the row, which is not in the table returned. *)
Theorem two_pass_drop (str_to_float : string -> option number)
    (data1 data2 : list (list (string * json))) (d : list (string * json))
    (n : nat) (s : string) :
  Forall is_row (data1 ++ d :: data2) ->
  (2 <= n < 10)%nat ->
  nth n (raw_cells d) NaN = Py (JStr s) ->
  str_to_float s = None ->
  existsb isna (raw_cells d) = false ->
  let data := data1 ++ d :: data2 in
  let label := List.length data1 in
  let dropped_once := dropna (DataFrame data) in
  normalize str_to_float data
    = (converted <- coerce_columns str_to_float (rename_columns dropped_once) ;;
       Ok (dropna converted))
  /\ In (label, raw_cells d) (rows dropped_once)
  /\ (exists converted,
        coerce_columns str_to_float (rename_columns dropped_once) = Ok converted
        /\ In (coerce_row str_to_float (label, raw_cells d)) (rows converted)
        /\ nth n (snd (coerce_row str_to_float (label, raw_cells d))) NaN = NaN)
  /\ (exists df,
        normalize str_to_float data = Ok df
        /\ ~ In label (map fst (rows df))).
Proof.
  intros Hd Hn Hcell Hs Hnull data label dropped_once.
  assert (Hrow : is_row d).
  { rewrite Forall_forall in Hd. apply Hd. apply in_or_app. right. now left. }
  change (Forall is_row data) in Hd.
  assert (Hne : data <> []) by (subst data; now destruct data1).
  assert (Hi : nth_error data label = Some d).
  { subst data label. rewrite nth_error_app2 by lia.
    now rewrite Nat.sub_diag. }
  assert (Hc : complete (label, raw_cells d) = true)
    by (unfold complete; cbn [snd]; now rewrite Hnull).
  assert (Hfirst : dropped_once
                   = {| columns := raw_columns; rows := first_pass data |}).
  { unfold dropped_once. now rewrite (DataFrame_rows Hd Hne). }
  destruct (unparsed_cell_incomplete str_to_float label (raw_cells d) n s
              (raw_cells_length d Hrow) Hn Hcell Hs) as [Hnan Hinc].
  split; [ reflexivity | ].
  split.
  { rewrite Hfirst. cbn [rows].
    now apply (first_pass_label data label d Hi). }
  split.
  { rewrite Hfirst. unfold rename_columns. cbn [columns rows].
    rewrite clean_columns_eq.
    rewrite coerce_columns_rows
      by (apply filter_length10; now apply raw_rows_length).
    eexists. split; [ reflexivity | ]. cbn [rows].
    split; [ | exact Hnan ].
    apply in_map. now apply (first_pass_label data label d Hi). }
  eexists. split; [ now apply normalize_rows | ]. cbn [rows].
  intros Hin.
  apply (normalized_rows_label str_to_float data label d Hi) in Hin.
  destruct Hin as [_ Hin]. congruence.
Qed.

Lemma two_pass_drop_witness :
  exists df,
    normalize decimal_to_float sample_data = Ok df
    /\ ~ In 1%nat (map fst (rows df)).
Proof.
  apply (two_pass_drop decimal_to_float [gold_row] [nifty_row] liquid_row
                       2 "NA").
  - repeat constructor.
  - lia.
  - reflexivity.
  - reflexivity.
  - reflexivity.
Defined.

(** The cells of the eight converted columns of a row of the table. *)
Lemma normalized_row_floats (str_to_float : string -> option number)
    (data : list (list (string * json))) (r : nat * list cell) :
  Forall is_row data ->
  In r (normalized_rows str_to_float data) ->
  exists l c0 c1 c2 c3 c4 c5 c6 c7 c8 c9,
    r = (l, [c0; c1; c2; c3; c4; c5; c6; c7; c8; c9])
    /\ forallb is_float [c2; c3; c4; c5; c6; c7; c8; c9] = true.
Proof.
  intros Hd Hin.
  destruct (normalized_rows_inv str_to_float data r Hd Hin)
    as (d & Hi & _ & Hr & Hc).
  assert (Hrow : is_row d).
  { rewrite Forall_forall in Hd. apply Hd. now apply nth_error_In with (fst r). }
  destruct (coerce_row_inv str_to_float (fst r, raw_cells d)
              (raw_cells_length d Hrow))
    as (l & c0 & c1 & c2 & c3 & c4 & c5 & c6 & c7 & c8 & c9 & _ & Hco).
  rewrite Hco in Hr. subst r.
  unfold complete in Hc. cbn [snd existsb] in Hc.
  apply negb_true_iff in Hc.
  repeat (apply orb_false_elim in Hc; destruct Hc as [? Hc]).
  repeat eexists. cbn [forallb].
  rewrite !complete_float by assumption. reflexivity.
Qed.

(** C4.  When something was fetched, normalization returns a table in
    which every one of the eight numeric columns holds floats only: no
    NaN, no [None], no "NA".  A record of the response in which the key of
    a numeric field is missing is not in the table. *)
Theorem numeric_columns_parse (str_to_float : string -> option number)
    (data : list (list (string * json))) :
  str_to_float "NA" = None ->
  Forall is_row data ->
  data <> [] ->
  exists df,
    normalize str_to_float data = Ok df
    /\ (forall col, In col numeric_cols ->
          exists values,
            getitem df col = Ok values
            /\ List.length values = List.length (rows df)
            /\ forallb is_float values = true)
    /\ (forall i item d f,
          nth_error data i = Some d ->
          make_row item = Ok d ->
          In f numeric_fields ->
          field item f = Ok None ->
          ~ In i (map fst (rows df))).
Proof.
  intros NA Hd Hne. eexists.
  split; [ now apply normalize_rows | ].
  split.
  - intros col Hcol. unfold getitem. cbn [columns rows].
    unfold numeric_cols in Hcol. cbn [In] in Hcol.
    assert (Hall : forall n,
              (2 <= n < 10)%nat ->
              forallb is_float
                (map (fun r : nat * list cell => nth n (snd r) NaN)
                     (normalized_rows str_to_float data)) = true).
    { intros n Hn. apply forallb_forall. intros c Hc.
      apply in_map_iff in Hc. destruct Hc as [r [<- Hr]].
      destruct (normalized_row_floats str_to_float data r Hd Hr)
        as (l & c0 & c1 & c2 & c3 & c4 & c5 & c6 & c7 & c8 & c9 & -> & Hf).
      cbn [forallb] in Hf.
      repeat (apply andb_prop in Hf; destruct Hf as [? Hf]).
      destruct n as [ | [ | [ | [ | [ | [ | [ | [ | [ | [ | n ] ] ] ] ] ] ] ] ] ];
        try lia; assumption. }
    repeat (destruct Hcol as [ <- | Hcol ];
            [ match goal with
              | |- context [index_of ?c ?cs] =>
                  let v := eval vm_compute in (index_of c cs) in
                  change (index_of c cs) with v
              end;
              eexists; split; [ reflexivity | ];
              split; [ now rewrite length_map | apply Hall; lia ]
            | ]).
    contradiction.
  - intros i item d f Hi Hitem Hf Hnone Hin. cbn [rows] in Hin.
    apply (normalized_rows_label str_to_float data i d Hi) in Hin.
    destruct Hin as [_ Hin].
    assert (Hrow : is_row d) by now apply make_row_is_row with item.
    assert (Hn : exists n, (2 <= n < 10)%nat /\ nth_error fields n = Some f).
    { unfold numeric_fields, fields in Hf. cbn [skipn In] in Hf.
      destruct Hf as [ <- | [ <- | [ <- | [ <- | [ <- | [ <- | [ <- | [ <- | [] ] ] ] ] ] ] ] ];
        [ exists 2%nat | exists 3%nat | exists 4%nat | exists 5%nat
        | exists 6%nat | exists 7%nat | exists 8%nat | exists 9%nat ];
        (split; [ lia | reflexivity ]). }
    destruct Hn as [n [Hn Hnth]].
    destruct (make_row_field item d Hitem n f Hnth) as [v [Hv Hcell]].
    rewrite Hnone in Hv. injection Hv as <-.
    replace (n <? 2)%nat with false in Hcell
      by (symmetry; apply Nat.ltb_ge; lia).
    destruct (unparsed_cell_incomplete str_to_float i (raw_cells d) n "NA"
                (raw_cells_length d Hrow) Hn Hcell NA) as [_ Hinc].
    congruence.
Qed.

Lemma numeric_columns_parse_witness :
  exists df,
    normalize decimal_to_float sample_data = Ok df
    /\ (forall col, In col numeric_cols ->
          exists values,
            getitem df col = Ok values
            /\ List.length values = List.length (rows df)
            /\ forallb is_float values = true)
    /\ (forall i item d f,
          nth_error sample_data i = Some d ->
          make_row item = Ok d ->
          In f numeric_fields ->
          field item f = Ok None ->
          ~ In i (map fst (rows df))).
Proof.
  apply (numeric_columns_parse decimal_to_float sample_data).
  - reflexivity.
  - repeat constructor.
  - discriminate.
Defined.

(** C9.  Running the normalization pass of lines 67-75 on a table it
    returned gives the same table back: the same rows with the same
    labels, in the same order. *)
Theorem normalize_idempotent (str_to_float : string -> option number)
    (data : list (list (string * json))) (df : frame) :
  Forall is_row data ->
  normalize str_to_float data = Ok df ->
  normalize_frame str_to_float df = Ok df.
Proof.
  intros Hd Hnorm.
  destruct data as [ | d0 data' ]; [ discriminate | ].
  rewrite normalize_rows in Hnorm by (assumption || discriminate).
  injection Hnorm as <-.
  set (data := d0 :: data') in *.
  assert (Hlen : Forall (fun r => List.length (snd r) = 10%nat)
                        (normalized_rows str_to_float data)).
  { apply filter_length10. apply Forall_forall. intros r Hr.
    apply in_map_iff in Hr. destruct Hr as [r0 [<- Hr0]].
    apply coerce_row_length.
    pose proof (filter_length10 complete (raw_rows data)
                  (raw_rows_length data Hd)) as H10.
    rewrite Forall_forall in H10. now apply H10. }
  assert (Hdrop : filter complete (normalized_rows str_to_float data)
                  = normalized_rows str_to_float data).
  { apply forallb_filter_id. apply forallb_forall. intros r Hr.
    unfold normalized_rows in Hr. now apply filter_In in Hr. }
  unfold normalize_frame, rename_columns. unfold dropna at 1 2.
  cbn [columns rows].
  change (filter (fun r => negb (existsb isna (snd r)))
                 (normalized_rows str_to_float data))
    with (filter complete (normalized_rows str_to_float data)).
  rewrite Hdrop, clean_columns_fixed.
  rewrite coerce_columns_rows by exact Hlen.
  unfold bind, dropna. cbn [columns rows].
  assert (Hmap : map (coerce_row str_to_float)
                     (normalized_rows str_to_float data)
                 = normalized_rows str_to_float data).
  { rewrite <- (map_id (normalized_rows str_to_float data)) at 2.
    apply map_ext_in. intros r Hr.
    unfold normalized_rows in Hr. apply filter_In in Hr.
    destruct Hr as [Hr _]. apply in_map_iff in Hr.
    destruct Hr as [r0 [<- Hr0]].
    apply coerce_row_idempotent.
    pose proof (filter_length10 complete (raw_rows data)
                  (raw_rows_length data Hd)) as H10.
    rewrite Forall_forall in H10. now apply H10. }
  rewrite Hmap.
  change (filter (fun r => negb (existsb isna (snd r)))
                 (normalized_rows str_to_float data))
    with (filter complete (normalized_rows str_to_float data)).
  now rewrite Hdrop.
Qed.

Lemma normalize_idempotent_witness :
  normalize decimal_to_float sample_data = Ok sample_table
  /\ normalize_frame decimal_to_float sample_table = Ok sample_table.
Proof.
  split; [ reflexivity | ].
  apply (normalize_idempotent decimal_to_float sample_data sample_table).
  - repeat constructor.
  - reflexivity.
Defined.

(** C10.  The first drop removes the row of a record exactly when the
    response holds an explicit null for one of its ten fields, the name
    and the sub-sector included.  A field whose key is missing gets the
    default of its column, the empty string for the two text columns and
    "NA" for the eight others, and neither is a missing value. *)
Theorem first_pass_drops_nulls (data : list (list (string * json)))
    (i : nat) (item : json) (d : list (string * json)) :
  Forall is_row data ->
  nth_error data i = Some d ->
  make_row item = Ok d ->
  (In i (map fst (rows (dropna (DataFrame data)))) <->
   ~ exists f, In f fields /\ field item f = Ok (Some JNull))
  /\ (forall n f,
        nth_error fields n = Some f ->
        field item f = Ok None ->
        nth n (raw_cells d) NaN
          = Py (JStr (if (n <? 2)%nat then "" else "NA"))
        /\ isna (nth n (raw_cells d) NaN) = false).
Proof.
  intros Hd Hi Hitem.
  assert (Hne : data <> []) by (intros ->; now destruct i).
  assert (Hrow : is_row d) by now apply make_row_is_row with item.
  split.
  - rewrite (DataFrame_rows Hd Hne). unfold dropna. cbn [rows].
    change (filter (fun r => negb (existsb isna (snd r))) (raw_rows data))
      with (first_pass data).
    destruct (first_pass_label data i d Hi) as [_ ->].
    unfold complete. cbn [snd]. rewrite negb_true_iff. split.
    + intros Hnone [f [Hf Hnull]].
      apply In_nth_error in Hf. destruct Hf as [n Hn].
      destruct (make_row_field item d Hitem n f Hn) as [v [Hv Hcell]].
      rewrite Hnull in Hv. injection Hv as <-.
      assert (Hex : existsb isna (raw_cells d) = true).
      { apply existsb_exists. exists (Py JNull). split; [ | reflexivity ].
        rewrite <- Hcell. apply nth_In.
        rewrite (raw_cells_length d Hrow).
        assert (Hlt : (n < List.length fields)%nat)
          by (apply nth_error_Some; congruence).
        exact Hlt. }
      congruence.
    + intros Hnone.
      destruct (existsb isna (raw_cells d)) eqn:Hex; [ | reflexivity ].
      exfalso. apply Hnone.
      apply existsb_exists in Hex. destruct Hex as [c [Hc Hna]].
      apply (In_nth _ _ NaN) in Hc. destruct Hc as [n [Hn Hc]].
      rewrite (raw_cells_length d Hrow) in Hn.
      destruct (nth_error fields n) as [ f | ] eqn:Hf.
      * destruct (make_row_field item d Hitem n f Hf) as [v [Hv Hcell]].
        exists f. split; [ now apply nth_error_In with n | ].
        subst c. rewrite Hcell in Hna.
        destruct v as [ [ | | | | | ] | ]; try discriminate Hna;
          assumption.
      * apply nth_error_None in Hf. cbn in Hf. lia.
  - intros n f Hn Hnone.
    destruct (make_row_field item d Hitem n f Hn) as [v [Hv Hcell]].
    rewrite Hnone in Hv. injection Hv as <-.
    split; [ exact Hcell | ]. rewrite Hcell. reflexivity.
Qed.

Lemma first_pass_drops_nulls_witness :
  (In 2%nat (map fst (rows (dropna (DataFrame sample_data)))) <->
   ~ exists f, In f fields
               /\ field (etf "Nifty ETF" null_price_ratios) f = Ok (Some JNull))
  /\ (In 1%nat (map fst (rows (dropna (DataFrame sample_data)))) <->
      ~ exists f, In f fields
                  /\ field (etf "Liquid ETF" no_mcap_ratios) f = Ok (Some JNull)).
Proof.
  split.
  - apply (first_pass_drops_nulls sample_data 2
             (etf "Nifty ETF" null_price_ratios) nifty_row).
    + repeat constructor.
    + reflexivity.
    + reflexivity.
  - apply (first_pass_drops_nulls sample_data 1
             (etf "Liquid ETF" no_mcap_ratios) liquid_row).
    + repeat constructor.
    + reflexivity.
    + reflexivity.
Defined.

(* ================================================================= *)
(** * Properties of the views *)

Lemma number_leb_refl (x : number) : number_leb x x = true.
Proof.
  destruct x; cbn; try reflexivity.
  apply Qle_bool_iff, Qle_refl.
Qed.

Lemma number_leb_trans (x y z : number) :
  number_leb x y = true -> number_leb y z = true -> number_leb x z = true.
Proof.
  destruct x, y, z; cbn; try reflexivity; try discriminate.
  rewrite !Qle_bool_iff. apply Qle_trans.
Qed.

Lemma number_leb_total (x y : number) :
  number_leb x y = true \/ number_leb y x = true.
Proof.
  destruct x as [ a | | ], y as [ b | | ]; cbn; auto.
  rewrite !Qle_bool_iff.
  destruct (Qlt_le_dec a b) as [H | H]; [ left; now apply Qlt_le_weak | now right ].
Qed.

Lemma cell_leb_total (ascending : bool) (c1 c2 : cell) :
  cell_leb ascending c1 c2 = true \/ cell_leb ascending c2 c1 = true.
Proof.
  destruct c1 as [ v1 | x | ], c2 as [ v2 | y | ]; cbn; auto.
  destruct ascending; apply number_leb_total.
Qed.

Lemma cell_leb_trans (ascending : bool) (c1 c2 c3 : cell) :
  cell_leb ascending c1 c2 = true -> cell_leb ascending c2 c3 = true ->
  cell_leb ascending c1 c3 = true.
Proof.
  destruct c1 as [ v1 | x | ], c2 as [ v2 | y | ], c3 as [ v3 | z | ]; cbn;
    try reflexivity; try discriminate.
  destruct ascending; intros H1 H2.
  - now apply number_leb_trans with y.
  - now apply number_leb_trans with y.
Qed.

(** On floats the descending order is the ascending order turned round. *)
Lemma cell_leb_float_flip (x y : number) :
  cell_leb false (Float x) (Float y) = cell_leb true (Float y) (Float x).
Proof. reflexivity. Qed.

Lemma In_firstn {A : Type} (n : nat) (l : list A) (x : A) :
  In x (firstn n l) -> In x l.
Proof.
  intros H. rewrite <- (firstn_skipn n l). apply in_or_app. now left.
Qed.

Lemma In_skipn {A : Type} (n : nat) (l : list A) (x : A) :
  In x (skipn n l) -> In x l.
Proof.
  intros H. rewrite <- (firstn_skipn n l). apply in_or_app. now right.
Qed.

(** The minimum of a column of floats is below all of them. *)
Lemma series_min_fold (values : list cell) (a : number) :
  forallb is_float values = true ->
  exists lo,
    fold_left (fun acc c =>
                 match acc, c with
                 | Float a, Float x => if number_leb a x then acc else c
                 | NaN, Float _ => c
                 | _, _ => acc
                 end) values (Float a) = Float lo
    /\ number_leb lo a = true
    /\ Forall (fun c => cell_ge c (Float lo) = true) values.
Proof.
  revert a. induction values as [ | c values IH ]; intros a Hf.
  - exists a. cbn. split; [ reflexivity | ].
    split; [ apply number_leb_refl | constructor ].
  - cbn [forallb] in Hf. apply andb_prop in Hf. destruct Hf as [Hc Hf].
    destruct c as [ | x | ]; try discriminate.
    cbn [fold_left].
    destruct (number_leb a x) eqn:Hax.
    + destruct (IH a Hf) as (lo & Hlo & Hle & Hall).
      exists lo. split; [ exact Hlo | ]. split; [ exact Hle | ].
      constructor; [ | exact Hall ].
      cbn. now apply number_leb_trans with a.
    + destruct (IH x Hf) as (lo & Hlo & Hle & Hall).
      exists lo. split; [ exact Hlo | ].
      split.
      * apply number_leb_trans with x; [ exact Hle | ].
        destruct (number_leb_total a x) as [H | H]; congruence.
      * constructor; [ exact Hle | exact Hall ].
Qed.

Lemma series_min_below (values : list cell) :
  forallb is_float values = true ->
  Forall (fun c => cell_ge c (series_min values) = true) values.
Proof.
  intros Hf. destruct values as [ | c values ]; [ constructor | ].
  cbn [forallb] in Hf. apply andb_prop in Hf. destruct Hf as [Hc Hf].
  destruct c as [ | x | ]; try discriminate.
  unfold series_min. cbn [fold_left].
  destruct (series_min_fold values x Hf) as (lo & -> & Hle & Hall).
  constructor; [ exact Hle | exact Hall ].
Qed.

(** The maximum of a column of floats is above all of them. *)
Lemma series_max_fold (values : list cell) (a : number) :
  forallb is_float values = true ->
  exists hi,
    fold_left (fun acc c =>
                 match acc, c with
                 | Float a, Float x => if number_leb x a then acc else c
                 | NaN, Float _ => c
                 | _, _ => acc
                 end) values (Float a) = Float hi
    /\ number_leb a hi = true
    /\ Forall (fun c => cell_le c (Float hi) = true) values.
Proof.
  revert a. induction values as [ | c values IH ]; intros a Hf.
  - exists a. cbn. split; [ reflexivity | ].
    split; [ apply number_leb_refl | constructor ].
  - cbn [forallb] in Hf. apply andb_prop in Hf. destruct Hf as [Hc Hf].
    destruct c as [ | x | ]; try discriminate.
    cbn [fold_left].
    destruct (number_leb x a) eqn:Hxa.
    + destruct (IH a Hf) as (hi & Hhi & Hle & Hall).
      exists hi. split; [ exact Hhi | ]. split; [ exact Hle | ].
      constructor; [ | exact Hall ].
      cbn. now apply number_leb_trans with a.
    + destruct (IH x Hf) as (hi & Hhi & Hle & Hall).
      exists hi. split; [ exact Hhi | ].
      split.
      * apply number_leb_trans with x; [ | exact Hle ].
        destruct (number_leb_total a x) as [H | H]; congruence.
      * constructor; [ exact Hle | exact Hall ].
Qed.

Lemma series_max_above (values : list cell) :
  forallb is_float values = true ->
  Forall (fun c => cell_le c (series_max values) = true) values.
Proof.
  intros Hf. destruct values as [ | c values ]; [ constructor | ].
  cbn [forallb] in Hf. apply andb_prop in Hf. destruct Hf as [Hc Hf].
  destruct c as [ | x | ]; try discriminate.
  unfold series_max. cbn [fold_left].
  destruct (series_max_fold values x Hf) as (hi & -> & Hle & Hall).
  constructor; [ exact Hle | exact Hall ].
Qed.

Lemma map_fst_combine_seq {A : Type} (l : list A) (start : nat) :
  map fst (combine (seq start (List.length l)) l) = seq start (List.length l).
Proof.
  revert start. induction l as [ | a l IH ]; intros start; [ reflexivity | ].
  cbn. now rewrite IH.
Qed.

Lemma NoDup_map_fst_filter {A B : Type} (f : A * B -> bool) (l : list (A * B)) :
  NoDup (map fst l) -> NoDup (map fst (filter f l)).
Proof.
  induction l as [ | x l IH ]; intros H; [ constructor | ].
  cbn [map] in H. inversion H as [ | ? ? Hnotin Hnd ]; subst.
  cbn [filter]. destruct (f x); [ | now apply IH ].
  cbn [map]. constructor; [ | now apply IH ].
  intros Hin. apply Hnotin.
  apply in_map_iff in Hin. destruct Hin as [y [Hy Hin]].
  apply filter_In in Hin. apply in_map_iff. exists y. tauto.
Qed.

Lemma normalized_rows_labels (str_to_float : string -> option number)
    (data : list (list (string * json))) :
  NoDup (map fst (normalized_rows str_to_float data)).
Proof.
  unfold normalized_rows, first_pass, raw_rows.
  apply NoDup_map_fst_filter. rewrite map_map. cbn [coerce_row fst].
  change (fun x : nat * list cell => fst x) with (@fst nat (list cell)).
  apply NoDup_map_fst_filter.
  rewrite <- (length_map raw_cells). rewrite map_fst_combine_seq.
  apply seq_NoDup.
Qed.

(** A table the pipeline returns is a numeric frame. *)
Lemma normalized_numeric (df : frame) : normalized df -> numeric_frame df.
Proof.
  intros (p & data & Hd & Hnorm).
  destruct data as [ | d0 data' ]; [ discriminate | ].
  rewrite normalize_rows in Hnorm by (assumption || discriminate).
  injection Hnorm as <-. unfold numeric_frame. cbn [columns rows].
  split; [ reflexivity | ].
  split; [ | apply normalized_rows_labels ].
  apply Forall_forall. intros r Hr.
  destruct (normalized_row_floats p _ r Hd Hr)
    as (l & c0 & c1 & c2 & c3 & c4 & c5 & c6 & c7 & c8 & c9 & -> & Hf).
  split; [ reflexivity | exact Hf ].
Qed.

(** In a numeric row the cells of the eight last columns are floats. *)
Lemma numeric_row_float (r : nat * list cell) (i : nat) :
  numeric_row r -> (2 <= i < 10)%nat ->
  exists x, nth i (snd r) NaN = Float x.
Proof.
  intros [Hlen Hf] Hi. destruct r as [l cells]. cbn [snd] in *.
  do 10 (destruct cells as [ | ? cells ]; [ discriminate | ]).
  destruct cells; [ | discriminate ].
  cbn [skipn forallb] in Hf.
  repeat (apply andb_prop in Hf; destruct Hf as [? Hf]).
  destruct i as [ | [ | [ | [ | [ | [ | [ | [ | [ | [ | i ] ] ] ] ] ] ] ] ] ];
    try lia; cbn [nth];
    match goal with
    | |- exists x, ?c = Float x => destruct c; try discriminate; now eexists
    end.
Qed.

Lemma numeric_column_floats (view : frame) (i : nat) :
  Forall numeric_row (rows view) -> (2 <= i < 10)%nat ->
  forallb is_float (map (fun r => nth i (snd r) NaN) (rows view)) = true.
Proof.
  intros Hrows Hi. apply forallb_forall. intros c Hc.
  apply in_map_iff in Hc. destruct Hc as [r [<- Hr]].
  rewrite Forall_forall in Hrows.
  destruct (numeric_row_float r i (Hrows r Hr) Hi) as [x ->]. reflexivity.
Qed.

(** Every row of a numeric frame lies within the span of a numeric
    column. *)
Lemma within_span (view : frame) (i : nat) (r : nat * list cell) :
  Forall numeric_row (rows view) -> (2 <= i < 10)%nat ->
  In r (rows view) ->
  let values := map (fun r => nth i (snd r) NaN) (rows view) in
  cell_ge (nth i (snd r) NaN) (series_min values) = true
  /\ cell_le (nth i (snd r) NaN) (series_max values) = true.
Proof.
  intros Hrows Hi Hr values.
  pose proof (numeric_column_floats view i Hrows Hi) as Hf.
  pose proof (series_min_below _ Hf) as Hmin.
  pose proof (series_max_above _ Hf) as Hmax.
  rewrite Forall_forall in Hmin, Hmax.
  split; [ apply Hmin | apply Hmax ];
    apply in_map_iff; exists r; now split.
Qed.

Section ViewLemmas.

Variable sort_rows :
  (nat * list cell -> nat * list cell -> bool) ->
  list (nat * list cell) -> list (nat * list cell).

Hypothesis sort_rows_sorts : sorts sort_rows.

Lemma head_rows (n : Z) (df : frame) (r : nat * list cell) :
  In r (rows (head n df)) -> In r (rows df).
Proof.
  unfold head. cbn [rows]. destruct (0 <=? n); apply In_firstn.
Qed.

Lemma NoDup_firstn {A : Type} (n : nat) (l : list A) :
  NoDup l -> NoDup (firstn n l).
Proof.
  intros H. rewrite <- (firstn_skipn n l) in H.
  now apply NoDup_app_remove_r in H.
Qed.

(** A view of a numeric frame is a numeric frame. *)
Lemma view_numeric (df view : frame) (metric : string) (n : Z)
    (ascending : bool) :
  numeric_frame df ->
  (sorted <- sort_values sort_rows df metric ascending ;;
   Ok (head n sorted)) = Ok view ->
  numeric_frame view.
Proof.
  intros (Hcols & Hrows & Hnd) Hview.
  unfold sort_values, bind in Hview.
  destruct (index_of metric (columns df)) as [ i | ]; [ | discriminate ].
  injection Hview as <-.
  destruct (sort_rows_sorts (row_leb i ascending) (rows df)) as [Hperm _].
  unfold numeric_frame, head. cbn [columns rows].
  split; [ exact Hcols | ].
  split.
  - apply Forall_forall. intros r Hr.
    rewrite Forall_forall in Hrows. apply Hrows.
    apply (Permutation_in _ Hperm).
    destruct (0 <=? n); now apply In_firstn in Hr.
  - assert (Hnd' : NoDup (map fst (sort_rows (row_leb i ascending) (rows df)))).
    { apply Permutation_NoDup with (map fst (rows df)); [ | exact Hnd ].
      apply Permutation_map. now apply Permutation_sym. }
    destruct (0 <=? n); rewrite <- firstn_map; now apply NoDup_firstn.
Qed.

End ViewLemmas.

(** The filter of lines 124-127 on a numeric frame with the expense ratio
    range at its full span, and with both ranges at their full span. *)
Lemma full_span_filter (view : frame) :
  numeric_frame view ->
  exists expense_ratio market_cap,
    getitem view "Expense_Ratio" = Ok expense_ratio
    /\ getitem view "Market_Cap" = Ok market_cap
    /\ (forall mcap,
          range_filter view
            (series_min expense_ratio, series_max expense_ratio) mcap
          = Ok {| columns := columns view;
                  rows := filter (fun r =>
                            cell_ge (nth 2 (snd r) NaN) (fst mcap)
                            && cell_le (nth 2 (snd r) NaN) (snd mcap))
                          (rows view) |})
    /\ (forall expense,
          range_filter view expense
            (series_min market_cap, series_max market_cap)
          = Ok {| columns := columns view;
                  rows := filter (fun r =>
                            cell_ge (nth 9 (snd r) NaN) (fst expense)
                            && cell_le (nth 9 (snd r) NaN) (snd expense))
                          (rows view) |})
    /\ range_filter view
         (series_min expense_ratio, series_max expense_ratio)
         (series_min market_cap, series_max market_cap)
       = Ok view.
Proof.
  intros (Hcols & Hrows & _).
  assert (He : forall r, In r (rows view) ->
            cell_ge (nth 9 (snd r) NaN)
              (series_min (map (fun r => nth 9 (snd r) NaN) (rows view))) = true
            /\ cell_le (nth 9 (snd r) NaN)
              (series_max (map (fun r => nth 9 (snd r) NaN) (rows view))) = true)
    by (intros r Hr; apply (within_span view 9 r Hrows); [ lia | exact Hr ]).
  assert (Hm : forall r, In r (rows view) ->
            cell_ge (nth 2 (snd r) NaN)
              (series_min (map (fun r => nth 2 (snd r) NaN) (rows view))) = true
            /\ cell_le (nth 2 (snd r) NaN)
              (series_max (map (fun r => nth 2 (snd r) NaN) (rows view))) = true)
    by (intros r Hr; apply (within_span view 2 r Hrows); [ lia | exact Hr ]).
  assert (Hge : getitem view "Expense_Ratio"
                = Ok (map (fun r => nth 9 (snd r) NaN) (rows view)))
    by (unfold getitem; rewrite Hcols; reflexivity).
  assert (Hgm : getitem view "Market_Cap"
                = Ok (map (fun r => nth 2 (snd r) NaN) (rows view)))
    by (unfold getitem; rewrite Hcols; reflexivity).
  do 2 eexists. split; [ exact Hge | ]. split; [ exact Hgm | ].
  assert (Hrf : forall expense mcap,
            range_filter view expense mcap
            = Ok {| columns := columns view;
                    rows := filter (fun r =>
                              cell_ge (nth 9 (snd r) NaN) (fst expense)
                              && cell_le (nth 9 (snd r) NaN) (snd expense)
                              && cell_ge (nth 2 (snd r) NaN) (fst mcap)
                              && cell_le (nth 2 (snd r) NaN) (snd mcap))
                            (rows view) |})
    by (intros; unfold range_filter; rewrite Hcols; reflexivity).
  split; [ | split ].
  - intros mcap. rewrite Hrf. f_equal. f_equal.
    apply filter_ext_in. intros r Hr. cbn [fst snd].
    destruct (He r Hr) as [-> ->]. reflexivity.
  - intros expense. rewrite Hrf. f_equal. f_equal.
    apply filter_ext_in. intros r Hr. cbn [fst snd].
    destruct (Hm r Hr) as [-> ->]. now rewrite !andb_true_r.
  - rewrite Hrf. cbn [fst snd].
    rewrite forallb_filter_id.
    + now destruct view.
    + apply forallb_forall. intros r Hr.
      destruct (He r Hr) as [-> ->]. destruct (Hm r Hr) as [-> ->].
      reflexivity.
Qed.

(* ----------------------------------------------------------------- *)
(** *** Sorted lists *)

Section Sorted.

Context {A : Type}.

Lemma StronglySorted_app_inv (R : A -> A -> Prop) (l1 l2 : list A) :
  StronglySorted R (l1 ++ l2) ->
  StronglySorted R l1 /\ StronglySorted R l2
  /\ (forall x y, In x l1 -> In y l2 -> R x y).
Proof.
  induction l1 as [ | a l1 IH ]; cbn [app]; intros H.
  - split; [ constructor | ]. split; [ exact H | ]. intros x y [].
  - apply StronglySorted_inv in H. destruct H as [Hs Hall].
    destruct (IH Hs) as (H1 & H2 & Hx).
    rewrite Forall_app in Hall. destruct Hall as [Ha1 Ha2].
    split; [ now constructor | ]. split; [ exact H2 | ].
    intros x y [ <- | Hin ] Hy.
    + rewrite Forall_forall in Ha2. now apply Ha2.
    + now apply Hx.
Qed.

Lemma StronglySorted_app (R : A -> A -> Prop) (l1 l2 : list A) :
  StronglySorted R l1 -> StronglySorted R l2 ->
  (forall x y, In x l1 -> In y l2 -> R x y) ->
  StronglySorted R (l1 ++ l2).
Proof.
  induction l1 as [ | a l1 IH ]; cbn [app]; intros H1 H2 Hx; [ exact H2 | ].
  apply StronglySorted_inv in H1. destruct H1 as [Hs Hall].
  constructor.
  - apply IH; [ exact Hs | exact H2 | ].
    intros x y Hin Hy. apply Hx; [ now right | exact Hy ].
  - apply Forall_app. split; [ exact Hall | ].
    apply Forall_forall. intros y Hy. apply Hx; [ now left | exact Hy ].
Qed.

(** A sorted list read backwards is sorted for the converse order. *)
Lemma StronglySorted_rev (R : A -> A -> Prop) (l : list A) :
  StronglySorted R l -> StronglySorted (fun x y => R y x) (rev l).
Proof.
  induction l as [ | a l IH ]; intros H; [ constructor | ].
  apply StronglySorted_inv in H. destruct H as [Hs Hall].
  cbn [rev]. apply StronglySorted_app.
  - now apply IH.
  - repeat constructor.
  - intros x y Hx [ <- | [] ]. rewrite Forall_forall in Hall.
    apply Hall. now apply in_rev.
Qed.

(** Sortedness goes over to an order that agrees on the elements. *)
Lemma StronglySorted_weaken (R R' : A -> A -> Prop) (l : list A) :
  (forall x y, In x l -> In y l -> R x y -> R' x y) ->
  StronglySorted R l -> StronglySorted R' l.
Proof.
  induction l as [ | a l IH ]; intros Himp H; [ constructor | ].
  apply StronglySorted_inv in H. destruct H as [Hs Hall].
  constructor.
  - apply IH; [ | exact Hs ].
    intros x y Hx Hy. apply Himp; now right.
  - rewrite Forall_forall in *. intros y Hy.
    apply Himp; [ now left | now right | now apply Hall ].
Qed.

(** Without ties there is one way to sort. *)
Lemma sorted_unique (R : A -> A -> Prop) (l1 l2 : list A) :
  (forall x y, In x l1 -> In y l1 -> R x y -> R y x -> x = y) ->
  StronglySorted R l1 -> StronglySorted R l2 ->
  Permutation l1 l2 ->
  l1 = l2.
Proof.
  revert l2. induction l1 as [ | a l1 IH ]; intros l2 Hanti H1 H2 Hperm.
  - apply Permutation_nil in Hperm. now subst.
  - destruct l2 as [ | b l2 ];
      [ apply Permutation_sym, Permutation_nil in Hperm; discriminate | ].
    apply StronglySorted_inv in H1. destruct H1 as [Hs1 Hall1].
    apply StronglySorted_inv in H2. destruct H2 as [Hs2 Hall2].
    rewrite Forall_forall in Hall1, Hall2.
    assert (Hab : a = b).
    { assert (Ha : In a (b :: l2))
        by (apply (Permutation_in _ Hperm); now left).
      assert (Hb : In b (a :: l1))
        by (apply (Permutation_in _ (Permutation_sym Hperm)); now left).
      destruct Ha as [ Ha | Ha ]; [ now subst | ].
      destruct Hb as [ Hb | Hb ]; [ now subst | ].
      apply Hanti; [ now left | now right | now apply Hall1 | now apply Hall2 ]. }
    subst b. f_equal.
    apply IH; [ | exact Hs1 | exact Hs2 | now apply Permutation_cons_inv with a ].
    intros x y Hx Hy. apply Hanti; now right.
Qed.

End Sorted.

(* ----------------------------------------------------------------- *)
(** *** The stable sort is a sort *)

Lemma insert_row_perm (le : nat * list cell -> nat * list cell -> bool)
    (x : nat * list cell) (l : list (nat * list cell)) :
  Permutation (insert_row le x l) (x :: l).
Proof.
  induction l as [ | y l IH ]; cbn [insert_row]; [ reflexivity | ].
  destruct (le x y); [ reflexivity | ].
  rewrite IH. apply perm_swap.
Qed.

Lemma insert_row_sorted (le : nat * list cell -> nat * list cell -> bool)
    (x : nat * list cell) (l : list (nat * list cell)) :
  (forall x y, le x y = true \/ le y x = true) ->
  (forall x y z, le x y = true -> le y z = true -> le x z = true) ->
  StronglySorted (fun x y => le x y = true) l ->
  StronglySorted (fun x y => le x y = true) (insert_row le x l).
Proof.
  intros Htot Htrans. induction l as [ | y l IH ]; intros H.
  - cbn. repeat constructor.
  - apply StronglySorted_inv in H. destruct H as [Hs Hall].
    cbn [insert_row]. destruct (le x y) eqn:Hxy.
    + constructor; [ now constructor | ].
      constructor; [ exact Hxy | ].
      rewrite Forall_forall in *. intros z Hz.
      apply Htrans with y; [ exact Hxy | now apply Hall ].
    + constructor; [ now apply IH | ].
      rewrite Forall_forall in *. intros z Hz.
      apply (Permutation_in _ (insert_row_perm le x l)) in Hz.
      destruct Hz as [ <- | Hz ]; [ | now apply Hall ].
      destruct (Htot x y) as [H | H]; congruence.
Qed.

Lemma stable_sort_sorts : sorts stable_sort.
Proof.
  intros le l. split.
  - induction l as [ | x l IH ]; [ reflexivity | ].
    cbn [stable_sort fold_right]. rewrite insert_row_perm.
    now apply perm_skip.
  - intros Htot Htrans. induction l as [ | x l IH ]; [ constructor | ].
    cbn [stable_sort fold_right]. now apply insert_row_sorted.
Qed.

(* ----------------------------------------------------------------- *)
(** *** The two sorted views *)

Lemma NoDup_app_disjoint {A : Type} (l1 l2 : list A) (x : A) :
  NoDup (l1 ++ l2) -> In x l1 -> In x l2 -> False.
Proof.
  induction l1 as [ | a l1 IH ]; cbn [app]; intros H H1 H2; [ exact H1 | ].
  inversion H as [ | ? ? Hnotin Hnd ]; subst.
  destruct H1 as [ -> | H1 ].
  - apply Hnotin. apply in_or_app. now right.
  - now apply IH.
Qed.

Lemma same_label_same_row (rs : list (nat * list cell))
    (r1 r2 : nat * list cell) :
  NoDup (map fst rs) -> In r1 rs -> In r2 rs -> fst r1 = fst r2 -> r1 = r2.
Proof.
  induction rs as [ | r rs IH ]; intros Hnd H1 H2 Heq; [ destruct H1 | ].
  cbn [map] in Hnd. inversion Hnd as [ | ? ? Hnotin Hnd' ]; subst.
  destruct H1 as [ -> | H1 ], H2 as [ -> | H2 ].
  - reflexivity.
  - exfalso. apply Hnotin. rewrite Heq. now apply in_map.
  - exfalso. apply Hnotin. rewrite <- Heq. now apply in_map.
  - now apply IH.
Qed.

Lemma row_leb_total (i : nat) (ascending : bool) (r1 r2 : nat * list cell) :
  row_leb i ascending r1 r2 = true \/ row_leb i ascending r2 r1 = true.
Proof. apply cell_leb_total. Qed.

Lemma row_leb_trans (i : nat) (ascending : bool)
    (r1 r2 r3 : nat * list cell) :
  row_leb i ascending r1 r2 = true -> row_leb i ascending r2 r3 = true ->
  row_leb i ascending r1 r3 = true.
Proof. apply cell_leb_trans. Qed.

Lemma row_leb_flip (i : nat) (r1 r2 : nat * list cell) :
  (2 <= i < 10)%nat -> numeric_row r1 -> numeric_row r2 ->
  row_leb i false r1 r2 = row_leb i true r2 r1.
Proof.
  intros Hi H1 H2. unfold row_leb.
  destruct (numeric_row_float r1 i H1 Hi) as [x ->].
  destruct (numeric_row_float r2 i H2 Hi) as [y ->].
  apply cell_leb_float_flip.
Qed.

Section TopAndBottom.

Variable sort_rows :
  (nat * list cell -> nat * list cell -> bool) ->
  list (nat * list cell) -> list (nat * list cell).

Hypothesis sort_rows_sorts : sorts sort_rows.

Variable rs : list (nat * list cell).
Variable i : nat.

Hypothesis rs_numeric : Forall numeric_row rs.
Hypothesis rs_labels : NoDup (map fst rs).
Hypothesis i_numeric : (2 <= i < 10)%nat.

Let ascending := sort_rows (row_leb i true) rs.
Let descending := sort_rows (row_leb i false) rs.

Lemma ascending_perm : Permutation ascending rs.
Proof. apply sort_rows_sorts. Qed.

Lemma descending_perm : Permutation descending rs.
Proof. apply sort_rows_sorts. Qed.

Lemma ascending_sorted :
  StronglySorted (fun x y => row_leb i true x y = true) ascending.
Proof.
  apply sort_rows_sorts; [ apply row_leb_total | apply row_leb_trans ].
Qed.

Lemma descending_sorted :
  StronglySorted (fun x y => row_leb i true y x = true) descending.
Proof.
  apply StronglySorted_weaken
    with (R := fun x y => row_leb i false x y = true).
  - intros x y Hx Hy H. rewrite Forall_forall in rs_numeric.
    rewrite <- row_leb_flip; [ exact H | exact i_numeric | | ];
      apply rs_numeric; now apply (Permutation_in _ descending_perm).
  - apply sort_rows_sorts; [ apply row_leb_total | apply row_leb_trans ].
Qed.

(** The first [n] rows of the descending sort are [n] rows of the table
    whose values are at least those of the rows left out. *)
Lemma top_rows (n : nat) :
  (n <= List.length rs)%nat ->
  List.length (firstn n descending) = n
  /\ Permutation (firstn n descending ++ skipn n descending) rs
  /\ (forall t r, In t (firstn n descending) -> In r (skipn n descending) ->
        row_leb i true r t = true).
Proof.
  intros Hn. split.
  - rewrite length_firstn, (Permutation_length descending_perm). lia.
  - split; [ rewrite firstn_skipn; apply descending_perm | ].
    pose proof descending_sorted as H.
    rewrite <- (firstn_skipn n descending) in H.
    apply StronglySorted_app_inv in H. apply H.
Qed.

(** The first [n] rows of the ascending sort are [n] rows of the table
    whose values are at most those of the rows left out. *)
Lemma bottom_rows (n : nat) :
  (n <= List.length rs)%nat ->
  List.length (firstn n ascending) = n
  /\ Permutation (firstn n ascending ++ skipn n ascending) rs
  /\ (forall u r, In u (firstn n ascending) -> In r (skipn n ascending) ->
        row_leb i true u r = true).
Proof.
  intros Hn. split.
  - rewrite length_firstn, (Permutation_length ascending_perm). lia.
  - split; [ rewrite firstn_skipn; apply ascending_perm | ].
    pose proof ascending_sorted as H.
    rewrite <- (firstn_skipn n ascending) in H.
    apply StronglySorted_app_inv in H. apply H.
Qed.

(** Without ties the descending sort is the ascending sort read
    backwards. *)
Lemma descending_rev : no_ties i rs -> descending = rev ascending.
Proof.
  intros Hties.
  assert (H : ascending = rev descending).
  { apply sorted_unique
      with (R := fun x y => row_leb i true x y = true).
    - intros x y Hx Hy. apply Hties;
        now apply (Permutation_in _ ascending_perm).
    - apply ascending_sorted.
    - apply (StronglySorted_rev _ _ descending_sorted).
    - rewrite <- Permutation_rev. rewrite ascending_perm.
      apply Permutation_sym, descending_perm. }
  rewrite H. now rewrite rev_involutive.
Qed.

(** Without ties, and when the table has at least [2 * n] rows, no row
    is among the first [n] of both sorts. *)
Lemma top_bottom_disjoint (n : nat) :
  no_ties i rs -> (2 * n <= List.length rs)%nat ->
  forall t u,
    In t (firstn n descending) -> In u (firstn n ascending) ->
    fst t <> fst u.
Proof.
  intros Hties Hn t u Ht Hu Heq.
  assert (Htu : t = u).
  { apply (same_label_same_row rs); [ exact rs_labels | | | exact Heq ].
    - apply (Permutation_in _ descending_perm). now apply In_firstn in Ht.
    - apply (Permutation_in _ ascending_perm). now apply In_firstn in Hu. }
  subst u.
  rewrite (descending_rev Hties), firstn_rev in Ht.
  apply in_rev in Ht.
  assert (Hlen : List.length ascending = List.length rs)
    by apply (Permutation_length ascending_perm).
  replace (List.length ascending - n)%nat
    with ((List.length ascending - n - n) + n)%nat in Ht by lia.
  rewrite <- skipn_skipn in Ht. apply In_skipn in Ht.
  apply (@NoDup_app_disjoint _ (firstn n ascending) (skipn n ascending) t);
    [ | exact Hu | exact Ht ].
  rewrite firstn_skipn.
  apply NoDup_map_inv with (f := fst).
  apply Permutation_NoDup with (map fst rs); [ | exact rs_labels ].
  apply Permutation_map, Permutation_sym, ascending_perm.
Qed.

End TopAndBottom.

(** The two views of a table the pipeline returned, for a numeric metric
    and a size within the table. *)
Lemma sorted_views
    (sort_rows : (nat * list cell -> nat * list cell -> bool) ->
                 list (nat * list cell) -> list (nat * list cell))
    (df : frame) (metric : string) (i n : nat) :
  sorts sort_rows ->
  normalized df ->
  index_of metric clean_columns = Some i ->
  (2 <= i < 10)%nat ->
  (n <= List.length (rows df))%nat ->
  exists top under,
    top_df sort_rows df metric (Z.of_nat n) = Ok top
    /\ under_df sort_rows df metric (Z.of_nat n) = Ok under
    /\ List.length (rows top) = n
    /\ List.length (rows under) = n
    /\ (exists rest,
          Permutation (rows top ++ rest) (rows df)
          /\ forall t r, In t (rows top) -> In r rest ->
               row_leb i true r t = true)
    /\ (exists rest,
          Permutation (rows under ++ rest) (rows df)
          /\ forall u r, In u (rows under) -> In r rest ->
               row_leb i true u r = true)
    /\ (no_ties i (rows df) -> (2 * n <= List.length (rows df))%nat ->
        disjoint top under).
Proof.
  intros Hsort Hdf Hmetric Hi Hn.
  destruct (normalized_numeric df Hdf) as (Hcols & Hrows & Hnd).
  unfold top_df, under_df, sort_values. rewrite Hcols, Hmetric.
  cbn [bind]. unfold head. cbn [columns rows].
  replace (0 <=? Z.of_nat n) with true by (symmetry; apply Z.leb_le; lia).
  rewrite Nat2Z.id.
  do 2 eexists. split; [ reflexivity | ]. split; [ reflexivity | ].
  cbn [rows].
  destruct (top_rows sort_rows Hsort (rows df) i Hrows Hi n Hn)
    as (Ht1 & Ht2 & Ht3).
  destruct (bottom_rows sort_rows Hsort (rows df) i Hi n Hn)
    as (Hb1 & Hb2 & Hb3).
  split; [ exact Ht1 | ]. split; [ exact Hb1 | ].
  split; [ eexists; split; [ exact Ht2 | exact Ht3 ] | ].
  split; [ eexists; split; [ exact Hb2 | exact Hb3 ] | ].
  intros Hties H2n t u Ht Hu. cbn [rows] in Ht, Hu.
  now apply (top_bottom_disjoint sort_rows Hsort (rows df) i Hrows Hnd Hi n
               Hties H2n).
Qed.

(* ================================================================= *)
(** * The claims on the views *)

Lemma ranked_table_normalized : normalized ranked_table.
Proof.
  exists decimal_to_float, ranked_data. split.
  - apply Forall_forall. intros d Hd. unfold ranked_data in Hd.
    apply in_map_iff in Hd. destruct Hd as [i [<- _]]. reflexivity.
  - apply normalize_rows; [ | discriminate ].
    apply Forall_forall. intros d Hd. unfold ranked_data in Hd.
    apply in_map_iff in Hd. destruct Hd as [i [<- _]]. reflexivity.
Qed.

Lemma tied_table_normalized : normalized tied_table.
Proof.
  exists decimal_to_float, tied_data. split.
  - apply Forall_forall. intros d Hd. unfold tied_data in Hd.
    apply in_map_iff in Hd. destruct Hd as [i [<- _]]. reflexivity.
  - apply normalize_rows; [ | discriminate ].
    apply Forall_forall. intros d Hd. unfold tied_data in Hd.
    apply in_map_iff in Hd. destruct Hd as [i [<- _]]. reflexivity.
Qed.

Lemma short_table_normalized : normalized short_table.
Proof.
  exists decimal_to_float, short_data. split.
  - apply Forall_forall. intros d Hd. unfold short_data in Hd.
    apply in_map_iff in Hd. destruct Hd as [i [<- _]]. reflexivity.
  - apply normalize_rows; [ | discriminate ].
    apply Forall_forall. intros d Hd. unfold short_data in Hd.
    apply in_map_iff in Hd. destruct Hd as [i [<- _]]. reflexivity.
Qed.

(** C7, as the code has it.  On a table of at least 50 rows the size of
    the views is between 10 and the number of rows, whatever the user
    does with the slider. *)
Theorem top_n_within_bounds (df : frame) (ui : option Z) :
  50 <= len df ->
  10 <= top_n df ui <= len df.
Proof.
  intros H. unfold top_n, slider. destruct ui as [ v | ]; lia.
Qed.

Lemma top_n_within_bounds_witness :
  50 <= len ranked_table
  /\ 10 <= top_n ranked_table (Some 1000) <= len ranked_table.
Proof.
  assert (H : 50 <= len ranked_table) by (vm_compute; discriminate).
  split; [ exact H | ].
  apply (top_n_within_bounds ranked_table (Some 1000) H).
Defined.

(** C7 as stated fails on a short table: on a table of 30 rows the slider
    returns its initial value, 50, which is more than the number of
    rows. *)
Lemma top_n_exceeds_short_table :
  normalized short_table
  /\ len short_table = 30
  /\ top_n short_table None = 50
  /\ ~ (10 <= top_n short_table None <= len short_table).
Proof.
  split; [ exact short_table_normalized | ].
  split; [ vm_compute; reflexivity | ].
  split; [ reflexivity | ].
  vm_compute. intros [_ H]. now apply H.
Qed.

(** C8.  On a view of a table the pipeline returned (the top or the
    bottom rows by a metric), a range filter whose bounds are the minimum
    and the maximum of its column over the view lets every row through:
    with the expense ratio range at its full span the filter is the
    market capitalization filter alone, and the other way round; with
    both ranges at their full span, where the sliders start, the filtered
    view is the view. *)
Theorem full_span_filter_is_identity
    (sort_rows : (nat * list cell -> nat * list cell -> bool) ->
                 list (nat * list cell) -> list (nat * list cell))
    (df view : frame) (metric : string) (n : Z) :
  sorts sort_rows ->
  normalized df ->
  top_df sort_rows df metric n = Ok view
  \/ under_df sort_rows df metric n = Ok view ->
  exists expense_ratio market_cap,
    getitem view "Expense_Ratio" = Ok expense_ratio
    /\ getitem view "Market_Cap" = Ok market_cap
    /\ (forall mcap,
          range_filter view
            (series_min expense_ratio, series_max expense_ratio) mcap
          = Ok {| columns := columns view;
                  rows := filter (fun r =>
                            cell_ge (nth 2 (snd r) NaN) (fst mcap)
                            && cell_le (nth 2 (snd r) NaN) (snd mcap))
                          (rows view) |})
    /\ (forall expense,
          range_filter view expense
            (series_min market_cap, series_max market_cap)
          = Ok {| columns := columns view;
                  rows := filter (fun r =>
                            cell_ge (nth 9 (snd r) NaN) (fst expense)
                            && cell_le (nth 9 (snd r) NaN) (snd expense))
                          (rows view) |})
    /\ range_filter view
         (series_min expense_ratio, series_max expense_ratio)
         (series_min market_cap, series_max market_cap)
       = Ok view.
Proof.
  intros Hsort Hdf Hview. apply full_span_filter.
  apply normalized_numeric in Hdf.
  destruct Hview as [Hview | Hview].
  - now apply (view_numeric sort_rows Hsort df view metric n false).
  - now apply (view_numeric sort_rows Hsort df view metric n true).
Qed.

Lemma full_span_filter_is_identity_witness :
  exists expense_ratio market_cap,
    getitem ranked_top "Expense_Ratio" = Ok expense_ratio
    /\ getitem ranked_top "Market_Cap" = Ok market_cap
    /\ (forall mcap,
          range_filter ranked_top
            (series_min expense_ratio, series_max expense_ratio) mcap
          = Ok {| columns := columns ranked_top;
                  rows := filter (fun r =>
                            cell_ge (nth 2 (snd r) NaN) (fst mcap)
                            && cell_le (nth 2 (snd r) NaN) (snd mcap))
                          (rows ranked_top) |})
    /\ (forall expense,
          range_filter ranked_top expense
            (series_min market_cap, series_max market_cap)
          = Ok {| columns := columns ranked_top;
                  rows := filter (fun r =>
                            cell_ge (nth 9 (snd r) NaN) (fst expense)
                            && cell_le (nth 9 (snd r) NaN) (snd expense))
                          (rows ranked_top) |})
    /\ range_filter ranked_top
         (series_min expense_ratio, series_max expense_ratio)
         (series_min market_cap, series_max market_cap)
       = Ok ranked_top.
Proof.
  apply (full_span_filter_is_identity stable_sort ranked_table ranked_top
           "1Y_Return" 50).
  - exact stable_sort_sorts.
  - exact ranked_table_normalized.
  - left. reflexivity.
Defined.

(** C6, as the code has it.  With "1 Year Return" as the metric and
    N = 50, on a table of 200 rows the pipeline returned, the top view is
    50 rows of the table whose one-year returns are at least those of the
    150 other rows, and the bottom view is 50 rows whose one-year returns
    are at most those of the 150 other rows.  When no two rows have the
    same one-year return, the two views have no row in common. *)
Theorem top_and_bottom_views
    (sort_rows : (nat * list cell -> nat * list cell -> bool) ->
                 list (nat * list cell) -> list (nat * list cell))
    (df : frame) :
  sorts sort_rows ->
  normalized df ->
  len df = 200 ->
  metric_col "1 Year Return" = Ok "1Y_Return"
  /\ top_n df None = 50
  /\ exists top under,
       top_df sort_rows df "1Y_Return" 50 = Ok top
       /\ under_df sort_rows df "1Y_Return" 50 = Ok under
       /\ List.length (rows top) = 50%nat
       /\ List.length (rows under) = 50%nat
       /\ (exists rest,
             Permutation (rows top ++ rest) (rows df)
             /\ forall t r, In t (rows top) -> In r rest ->
                  row_leb 7 true r t = true)
       /\ (exists rest,
             Permutation (rows under ++ rest) (rows df)
             /\ forall u r, In u (rows under) -> In r rest ->
                  row_leb 7 true u r = true)
       /\ (no_ties 7 (rows df) -> disjoint top under).
Proof.
  intros Hsort Hdf Hlen.
  assert (Hlen' : List.length (rows df) = 200%nat) by (unfold len in Hlen; lia).
  split; [ reflexivity | ].
  split; [ reflexivity | ].
  destruct (sorted_views sort_rows df "1Y_Return" 7 50 Hsort Hdf)
    as (top & under & Htop & Hunder & Ht & Hu & Htr & Hur & Hdis);
    [ reflexivity | lia | lia | ].
  exists top, under.
  repeat (split; [ assumption | ]).
  intros Hties. apply Hdis; [ exact Hties | lia ].
Qed.

Lemma no_ties_check_sound (i : nat) (rs : list (nat * list cell)) :
  NoDup (map fst rs) -> no_ties_check i rs = true -> no_ties i rs.
Proof.
  intros Hnd Hcheck r1 r2 H1 H2 H12 H21.
  unfold no_ties_check in Hcheck. rewrite forallb_forall in Hcheck.
  specialize (Hcheck r1 H1). rewrite forallb_forall in Hcheck.
  specialize (Hcheck r2 H2). rewrite H12, H21 in Hcheck. cbn in Hcheck.
  apply Nat.eqb_eq in Hcheck.
  now apply (same_label_same_row rs).
Qed.

Lemma ranked_table_no_ties : no_ties 7 (rows ranked_table).
Proof.
  apply no_ties_check_sound.
  - apply normalized_rows_labels.
  - vm_compute. reflexivity.
Qed.

Lemma top_and_bottom_views_witness :
  len ranked_table = 200
  /\ no_ties 7 (rows ranked_table)
  /\ metric_col "1 Year Return" = Ok "1Y_Return"
  /\ top_n ranked_table None = 50
  /\ exists top under,
       top_df stable_sort ranked_table "1Y_Return" 50 = Ok top
       /\ under_df stable_sort ranked_table "1Y_Return" 50 = Ok under
       /\ List.length (rows top) = 50%nat
       /\ List.length (rows under) = 50%nat
       /\ (exists rest,
             Permutation (rows top ++ rest) (rows ranked_table)
             /\ forall t r, In t (rows top) -> In r rest ->
                  row_leb 7 true r t = true)
       /\ (exists rest,
             Permutation (rows under ++ rest) (rows ranked_table)
             /\ forall u r, In u (rows under) -> In r rest ->
                  row_leb 7 true u r = true)
       /\ (no_ties 7 (rows ranked_table) -> disjoint top under).
Proof.
  assert (Hlen : len ranked_table = 200) by (vm_compute; reflexivity).
  split; [ exact Hlen | ].
  split; [ exact ranked_table_no_ties | ].
  apply (top_and_bottom_views stable_sort ranked_table).
  - exact stable_sort_sorts.
  - exact ranked_table_normalized.
  - exact Hlen.
Defined.

Lemma tied_table_length : List.length (rows tied_table) = 200%nat.
Proof. vm_compute; reflexivity. Qed.

Lemma tied_table_rows :
  rows tied_table = normalized_rows decimal_to_float tied_data.
Proof. reflexivity. Qed.

(** Every row of [tied_table] has the same cells. *)
Lemma tied_table_cells (r : nat * list cell) :
  In r (rows tied_table) -> snd r = gold_cells.
Proof.
  intros Hr. rewrite tied_table_rows in Hr.
  assert (Hd : Forall is_row tied_data).
  { apply Forall_forall. intros d Hd. unfold tied_data in Hd.
    apply in_map_iff in Hd. destruct Hd as [i [<- _]]. reflexivity. }
  destruct (normalized_rows_inv decimal_to_float tied_data r Hd Hr)
    as (d & Hi & _ & Hrow & _).
  apply nth_error_In in Hi. unfold tied_data in Hi.
  apply in_map_iff in Hi. destruct Hi as [i [<- _]].
  rewrite Hrow. unfold gold_cells, coerce_row. cbn [fst snd]. reflexivity.
Qed.

(** C6 as stated fails when rows tie.  On the table of 200 rows made of
    the same record 200 times, whatever the sort does with ties, the top
    view and the bottom view hold rows with the same cells; and when the
    sort leaves tied rows in the order of the table, the two views are the
    same 50 rows. *)
Lemma tied_views_overlap :
  normalized tied_table
  /\ len tied_table = 200
  /\ (forall sort_rows, sorts sort_rows ->
        exists top under,
          top_df sort_rows tied_table "1Y_Return" 50 = Ok top
          /\ under_df sort_rows tied_table "1Y_Return" 50 = Ok under
          /\ exists t u,
               In t (rows top) /\ In u (rows under) /\ snd t = snd u)
  /\ top_df stable_sort tied_table "1Y_Return" 50 = Ok tied_top
  /\ under_df stable_sort tied_table "1Y_Return" 50 = Ok tied_under
  /\ rows tied_top = rows tied_under
  /\ ~ disjoint tied_top tied_under.
Proof.
  assert (Hlen : len tied_table = 200) by (vm_compute; reflexivity).
  split; [ exact tied_table_normalized | ].
  split; [ exact Hlen | ].
  split.
  - intros sort_rows Hsort.
    destruct (sorted_views sort_rows tied_table "1Y_Return" 7 50 Hsort
                tied_table_normalized)
      as (top & under & Htop & Hunder & Hlt & Hlu & Ht & Hu & _);
      [ reflexivity | lia | rewrite tied_table_length; lia | ].
    exists top, under. split; [ exact Htop | ]. split; [ exact Hunder | ].
    destruct (rows top) as [ | t ts ] eqn:Et; [ discriminate | ].
    destruct (rows under) as [ | u us ] eqn:Eu; [ discriminate | ].
    exists t, u. split; [ now left | ]. split; [ now left | ].
    destruct Ht as (rest_t & Hpt & _). destruct Hu as (rest_u & Hpu & _).
    rewrite (tied_table_cells t), (tied_table_cells u);
      [ reflexivity | | ].
    + apply (Permutation_in _ Hpu). now left.
    + apply (Permutation_in _ Hpt). now left.
  - split; [ vm_compute; reflexivity | ].
    split; [ vm_compute; reflexivity | ].
    split; [ vm_compute; reflexivity | ].
    intros Hdis. apply (Hdis (0%nat, gold_cells) (0%nat, gold_cells)).
    + vm_compute. left. reflexivity.
    + vm_compute. left. reflexivity.
    + reflexivity.
Qed.

(* ================================================================= *)
(** * Further properties of the fetch loop *)

(** The loop of lines 44-61 over the items of a page, from the rows
    gathered so far: it returns the rows of the items, in order, after
    them. *)
Lemma rows_loop_ok (items : list json) :
  forall acc rows,
    foldM (fun acc item => row <- make_row item ;; Ok (acc ++ [row])) items acc
      = Ok rows
    <-> exists made,
          Forall2 (fun item row => make_row item = Ok row) items made
          /\ rows = acc ++ made.
Proof.
  induction items as [ | item items IH ]; intros acc rows; cbn [foldM].
  - split.
    + intros H. injection H as <-. exists []. split; [ constructor | ].
      now rewrite app_nil_r.
    + intros (made & Hmade & ->). inversion Hmade. now rewrite app_nil_r.
  - unfold bind at 1 2. destruct (make_row item) as [ row | e ] eqn:Hrow.
    + rewrite IH. split.
      * intros (made & Hmade & ->). exists (row :: made).
        split; [ now constructor | ]. now rewrite <- app_assoc.
      * intros (made & Hmade & ->).
        inversion Hmade as [ | ? row' ? made' Hrow' Hrest ]; subst.
        rewrite Hrow in Hrow'. injection Hrow' as <-.
        exists made'. split; [ exact Hrest | ]. now rewrite <- app_assoc.
    + split; [ discriminate | ].
      intros (made & Hmade & _).
      inversion Hmade as [ | ? row' ? made' Hrow' Hrest ]; subst. congruence.
Qed.

(** The loop raises what the first item that cannot be read raises. *)
Lemma rows_loop_raise (items : list json) :
  forall acc e,
    foldM (fun acc item => row <- make_row item ;; Ok (acc ++ [row])) items acc
      = Raise e
    <-> exists before item after,
          items = before ++ item :: after
          /\ forallb (fun it => is_ok (make_row it)) before = true
          /\ make_row item = Raise e.
Proof.
  induction items as [ | item items IH ]; intros acc e; cbn [foldM].
  - split; [ discriminate | ].
    intros (before & it & after & H & _). now destruct before.
  - unfold bind at 1 2. destruct (make_row item) as [ row | e' ] eqn:Hrow.
    + rewrite IH. split.
      * intros (before & it & after & -> & Hb & Hit).
        exists (item :: before), it, after. split; [ reflexivity | ].
        split; [ | exact Hit ]. cbn [forallb]. now rewrite Hrow.
      * intros (before & it & after & Heq & Hb & Hit).
        destruct before as [ | b before ].
        -- cbn in Heq. injection Heq as <- <-. congruence.
        -- cbn in Heq. injection Heq as <- ->.
           cbn [forallb] in Hb. apply andb_prop in Hb.
           exists before, it, after. tauto.
    + split.
      * intros H. injection H as <-.
        exists [], item, items. now repeat split.
      * intros (before & it & after & Heq & Hb & Hit).
        destruct before as [ | b before ].
        -- cbn in Heq. injection Heq as <- <-. congruence.
        -- cbn in Heq. injection Heq as <- ->.
           cbn [forallb] in Hb. rewrite Hrow in Hb. discriminate.
Qed.

(** X1.  On a page whose results are a list, [page_rows] returns one row
    per item, in the order of the items, when every item can be read; it
    raises what the first item that cannot be read raises, and then no
    row of the page is returned. *)
Theorem page_rows_in_order (body data : json) (items : list json) :
  get body "data" (JObj []) = Ok data ->
  get data "results" (JArr []) = Ok (JArr items) ->
  (forall rows,
     page_rows body = Ok rows
     <-> Forall2 (fun item row => make_row item = Ok row) items rows)
  /\ (forall e,
        page_rows body = Raise e
        <-> exists before item after,
              items = before ++ item :: after
              /\ forallb (fun it => is_ok (make_row it)) before = true
              /\ make_row item = Raise e).
Proof.
  intros Hdata Hresults. unfold page_rows. rewrite Hdata. cbn [bind].
  rewrite Hresults. cbn [bind iter]. split.
  - intros rows. rewrite rows_loop_ok. cbn [app]. split.
    + now intros (made & Hmade & ->).
    + intros H. now exists rows.
  - intros e. apply rows_loop_raise.
Qed.

Lemma page_rows_in_order_witness :
  Forall2 (fun item row => make_row item = Ok row)
          [ etf "Gold ETF" gold_ratios; etf "Liquid ETF" no_mcap_ratios ]
          [ gold_row; liquid_row ].
Proof.
  apply (page_rows_in_order
           (JObj [ ("data",
                    JObj [ ("results",
                            JArr [ etf "Gold ETF" gold_ratios;
                                   etf "Liquid ETF" no_mcap_ratios ]) ]) ])
           (JObj [ ("results",
                    JArr [ etf "Gold ETF" gold_ratios;
                           etf "Liquid ETF" no_mcap_ratios ]) ])).
  - reflexivity.
  - reflexivity.
  - reflexivity.
Defined.

(** X2.  A page with status 200 whose body is a dict without the key
    "data", or whose data is a dict without the key "results", gives no
    row and raises nothing. *)
Theorem page_without_results_is_empty (b : list (string * json)) :
  lookup "data" b = None
  \/ (exists d, lookup "data" b = Some (JObj d) /\ lookup "results" d = None) ->
  page_rows (JObj b) = Ok [].
Proof.
  intros [ H | (d & Hd & Hr) ]; unfold page_rows; cbn [get bind].
  - rewrite H. reflexivity.
  - rewrite Hd. cbn [get bind]. rewrite Hr. reflexivity.
Qed.

Lemma page_without_results_is_empty_witness :
  page_rows (JObj [ ("data", JObj [ ("total", JNum (0 # 1)) ]) ]) = Ok [].
Proof.
  apply (page_without_results_is_empty
           [ ("data", JObj [ ("total", JNum (0 # 1)) ]) ]).
  right. exists [ ("total", JNum (0 # 1)) ]. now split.
Defined.

(** X3.  The default of [.get("data", {})] is for a missing key only: a
    body that is not a dict, or whose "data" is there and is not a dict
    (an explicit null, for one), makes line 43 raise [AttributeError]. *)
Theorem page_with_bad_data_raises (body : json) :
  (forall b, body <> JObj b)
  \/ (exists b v,
        body = JObj b /\ lookup "data" b = Some v /\ forall d, v <> JObj d) ->
  page_rows body = Raise (AttributeError "get").
Proof.
  intros [ H | (b & v & -> & Hv & Hnd) ]; unfold page_rows.
  - destruct body; try reflexivity. now destruct (H items).
  - cbn [get bind]. rewrite Hv.
    destruct v; try reflexivity. now destruct (Hnd items).
Qed.

Lemma page_with_bad_data_raises_witness :
  page_rows (JObj [ ("data", JNull) ]) = Raise (AttributeError "get").
Proof.
  apply (page_with_bad_data_raises (JObj [ ("data", JNull) ])).
  right. exists [ ("data", JNull) ], JNull.
  split; [ reflexivity | ]. split; [ reflexivity | ]. discriminate.
Defined.

(** X4.  A record without the key "stock" is read as a row of defaults:
    the two text columns empty and "NA" in the eight others.  A record
    whose "stock" is there and is not a dict (an explicit null, for one)
    makes line 46 raise [AttributeError]. *)
Theorem record_without_stock (it : list (string * json)) :
  (lookup "stock" it = None ->
   make_row (JObj it)
   = Ok [ ("Name", JStr ""); ("Sub-Sector", JStr "");
          (String.append arrow "Market Cap", JStr "NA");
          ("Close Price", JStr "NA"); ("1D Return", JStr "NA");
          ("1M Return", JStr "NA"); ("6M Return", JStr "NA");
          ("1Y Return", JStr "NA"); ("Volatility vs Nifty", JStr "NA");
          ("Expense Ratio", JStr "NA") ])
  /\ (forall v,
        lookup "stock" it = Some v -> (forall d, v <> JObj d) ->
        make_row (JObj it) = Raise (AttributeError "get")).
Proof.
  split.
  - intros H. unfold make_row. cbn [get bind]. rewrite H. reflexivity.
  - intros v Hv Hnd. unfold make_row. cbn [get bind]. rewrite Hv.
    destruct v; try reflexivity. now destruct (Hnd items).
Qed.

Lemma fetch_loop_app (post : Z -> outcome) (offsets1 offsets2 : list Z) :
  answered post offsets1 = true ->
  forall all_data trace,
    fetch_loop post (offsets1 ++ offsets2) all_data trace
    = fetch_loop post offsets2
        (all_data ++ flat_map (page_data post) offsets1)
        (trace ++ flat_map (page_events post) offsets1).
Proof.
  induction offsets1 as [ | o os IH ]; intros Hans all_data trace.
  - cbn. now rewrite !app_nil_r.
  - cbn [answered forallb] in Hans. apply andb_prop in Hans.
    destruct Hans as [Ho Hos].
    cbn [app fetch_loop flat_map]. unfold page_events, page_data.
    destruct (post o) as [ | st body ]; [ discriminate | ].
    destruct (st =? 200).
    + destruct (j <- response_json body ;; page_rows j) as [ rs | e ];
        [ | discriminate ].
      rewrite (IH Hos). now rewrite <- !app_assoc.
    + rewrite (IH Hos). rewrite <- !app_assoc. now rewrite app_nil_l.
Qed.

(** X5.  The loop has an early exit: the first page that gets no answer,
    or that has status 200 and a body lines 43-47 cannot read, ends the
    run with its exception.  The pages after it are not requested, the
    pause of line 64 is not made, and the rows gathered before are not
    returned. *)
Theorem bad_page_ends_the_run (str_to_float : string -> option number)
    (post : Z -> outcome) (before after : list Z) (offset : Z) (e : exn) :
  range 0 total_results count = before ++ offset :: after ->
  answered post before = true ->
  page_raises post offset = Some e ->
  fetch_etf_data str_to_float post
  = (flat_map (page_events post) before ++ [EvPost offset], Raise e)
  /\ posts (fst (fetch_etf_data str_to_float post)) = before ++ [offset].
Proof.
  intros Hrange Hans Hraise.
  assert (H : fetch_etf_data str_to_float post
              = (flat_map (page_events post) before ++ [EvPost offset],
                 Raise e)).
  { unfold fetch_etf_data, fetch_pages. rewrite Hrange.
    rewrite (fetch_loop_app post before (offset :: after) Hans).
    cbn [fetch_loop app]. unfold page_raises in Hraise.
    destruct (post offset) as [ | st body ].
    - injection Hraise as <-. reflexivity.
    - destruct (st =? 200); [ | discriminate ].
      destruct (j <- response_json body ;; page_rows j) as [ rs | e' ];
        [ discriminate | ].
      injection Hraise as <-. reflexivity. }
  split; [ exact H | ].
  rewrite H. cbn [fst]. rewrite posts_app, posts_page_events.
  reflexivity.
Qed.

Lemma bad_page_ends_the_run_witness :
  fetch_etf_data decimal_to_float post_garbled
  = ([EvPost 0; EvSleep 1; EvPost 20], Raise JSONDecodeError)
  /\ posts (fst (fetch_etf_data decimal_to_float post_garbled)) = [0; 20].
Proof.
  apply (bad_page_ends_the_run decimal_to_float post_garbled [0]
           [40; 60; 80; 100; 120; 140; 160; 180; 200; 220; 240; 260] 20
           JSONDecodeError).
  - reflexivity.
  - reflexivity.
  - reflexivity.
Defined.

(** X6.  In a run in which every request is answered, [fetch_etf_data]
    returns a table exactly when at least one record was gathered, be it
    an incomplete one: the table then has the ten cleaned column labels,
    in order.  When no record was gathered (every page failed or was
    empty) it returns no table: the frame of line 66 has no column, and
    lines 68-74 raise. *)
Theorem returns_iff_gathered (str_to_float : string -> option number)
    (post : Z -> outcome) :
  answered post (range 0 total_results count) = true ->
  let gathered := flat_map (page_data post) (range 0 total_results count) in
  (gathered = [] ->
   exists e, snd (fetch_etf_data str_to_float post) = Raise e)
  /\ (gathered <> [] ->
      exists df,
        snd (fetch_etf_data str_to_float post) = Ok df
        /\ columns df = clean_columns
        /\ (List.length (rows df) <= List.length gathered)%nat).
Proof.
  intros Hans gathered.
  assert (Hrows : Forall is_row gathered).
  { apply (fetch_loop_is_row post (range 0 total_results count) [] []
             (flat_map (page_events post) (range 0 total_results count))).
    - constructor.
    - now rewrite (fetch_loop_answered post _ Hans). }
  unfold fetch_etf_data, fetch_pages.
  rewrite (fetch_loop_answered post _ Hans). cbn [snd app bind].
  fold gathered. split.
  - intros ->. eexists. reflexivity.
  - intros Hne. eexists. split; [ now apply normalize_rows | ].
    cbn [columns rows]. split; [ reflexivity | ].
    unfold normalized_rows, first_pass, raw_rows.
    eapply Nat.le_trans; [ apply filter_length_le | ].
    rewrite length_map.
    eapply Nat.le_trans; [ apply filter_length_le | ].
    rewrite length_combine, length_seq, length_map. lia.
Qed.

Lemma returns_iff_gathered_witness :
  exists e, snd (fetch_etf_data decimal_to_float post_empty) = Raise e.
Proof.
  apply (returns_iff_gathered decimal_to_float post_empty).
  - reflexivity.
  - reflexivity.
Defined.

Lemma record_without_stock_witness :
  make_row (JObj [ ("sid", JStr "GOLD") ])
  = Ok [ ("Name", JStr ""); ("Sub-Sector", JStr "");
         (String.append arrow "Market Cap", JStr "NA");
         ("Close Price", JStr "NA"); ("1D Return", JStr "NA");
         ("1M Return", JStr "NA"); ("6M Return", JStr "NA");
         ("1Y Return", JStr "NA"); ("Volatility vs Nifty", JStr "NA");
         ("Expense Ratio", JStr "NA") ].
Proof.
  apply (record_without_stock [ ("sid", JStr "GOLD") ]). reflexivity.
Defined.

(* ================================================================= *)
(** * The payload and the pages *)

Lemma lookup_dict_set_same (key : string) (value : json)
    (d : list (string * json)) :
  lookup key (dict_set key value d) = Some value.
Proof.
  induction d as [ | [k v] d IH ]; cbn [dict_set lookup].
  - now rewrite String.eqb_refl.
  - destruct (String.eqb key k) eqn:E; cbn [lookup].
    + now rewrite String.eqb_refl.
    + now rewrite E.
Qed.

Lemma lookup_dict_set_other (key key' : string) (value : json)
    (d : list (string * json)) :
  key' <> key ->
  lookup key' (dict_set key value d) = lookup key' d.
Proof.
  intros Hne. apply String.eqb_neq in Hne.
  induction d as [ | [k v] d IH ]; cbn [dict_set lookup].
  - now rewrite Hne.
  - destruct (String.eqb key k) eqn:E; cbn [lookup].
    + apply String.eqb_eq in E. subst k. now rewrite Hne.
    + now rewrite IH.
Qed.

(** The offsets of a range are the multiples of the step from the start
    that are below the stop. *)
Lemma In_range (start stop step offset : Z) :
  0 < step ->
  In offset (range start stop step)
  <-> start <= offset < stop /\ (offset - start) mod step = 0.
Proof.
  intros Hs. split.
  - intros Hin. split; [ now apply range_below with step | ].
    unfold range in Hin. apply in_map_iff in Hin.
    destruct Hin as [i [<- _]].
    replace (start + Z.of_nat i * step - start) with (Z.of_nat i * step) by lia.
    apply Z.mod_mul. lia.
  - intros [Hb Hm]. unfold range. apply in_map_iff.
    exists (Z.to_nat ((offset - start) / step)).
    assert (Hq : offset - start = step * ((offset - start) / step))
      by (apply Z.div_exact; [ lia | exact Hm ]).
    assert (Hq0 : 0 <= (offset - start) / step)
      by (apply Z.div_pos; lia).
    split.
    + rewrite Z2Nat.id by exact Hq0. lia.
    + apply in_seq. split; [ lia | ]. cbn [plus].
      apply Z2Nat.inj_lt; [ exact Hq0 | | ].
      * unfold range_len. destruct (start <? stop); [ | lia ].
        apply Z.div_pos; lia.
      * unfold range_len.
        destruct (Z.ltb_spec start stop) as [ _ | Hge ]; [ | lia ].
        apply Z.div_lt_upper_bound; [ lia | ].
        assert (Hc : stop - start + step - 1
                     < step * ((stop - start + step - 1) / step) + step).
        { pose proof (Z.mod_pos_bound (stop - start + step - 1) step Hs).
          pose proof (Z.div_mod (stop - start + step - 1) step).
          lia. }
        nia.
Qed.

(** X7.  The payload of a page is the template with the offset of the
    page: same keys in the same order, the page's offset under "offset",
    every other entry as in the template, the count of 20 among them.
    With it the pages requested tile the records: every record index
    from 0 to 270 lies in exactly one page [offset, offset + 20). *)
Theorem pages_tile_the_records (i : Z) :
  0 <= i < total_results ->
  exists offset,
    In offset (range 0 total_results count)
    /\ map fst (payload offset) = map fst payload_template
    /\ lookup "offset" (payload offset) = Some (JNum (inject_Z offset))
    /\ lookup "count" (payload offset) = Some (JNum (inject_Z count))
    /\ (forall key, key <> "offset" ->
          lookup key (payload offset) = lookup key payload_template)
    /\ offset <= i < offset + count
    /\ (forall offset',
          In offset' (range 0 total_results count) ->
          offset' <= i < offset' + count -> offset' = offset).
Proof.
  intros Hi. unfold total_results, count in *.
  exists (20 * (i / 20)).
  pose proof (Z.div_mod i 20) as Hdm.
  pose proof (Z.mod_pos_bound i 20) as Hmb.
  assert (Hq : 0 <= i / 20) by (apply Z.div_pos; lia).
  split.
  { apply In_range; [ lia | ]. split; [ lia | ].
    rewrite Z.sub_0_r, Z.mul_comm. apply Z.mod_mul. lia. }
  split; [ reflexivity | ].
  split; [ apply lookup_dict_set_same | ].
  split; [ reflexivity | ].
  split; [ intros key Hk; now apply lookup_dict_set_other | ].
  split; [ lia | ].
  intros o Ho Hoi. apply In_range in Ho; [ | lia ].
  destruct Ho as [_ Hm]. rewrite Z.sub_0_r in Hm.
  assert (Ho : o = 20 * (o / 20)) by (apply Z.div_exact; [ lia | exact Hm ]).
  assert (Heq : o / 20 = i / 20) by nia.
  lia.
Qed.

Lemma pages_tile_the_records_witness :
  exists offset,
    In offset (range 0 total_results count)
    /\ map fst (payload offset) = map fst payload_template
    /\ lookup "offset" (payload offset) = Some (JNum (inject_Z offset))
    /\ lookup "count" (payload offset) = Some (JNum (inject_Z count))
    /\ (forall key, key <> "offset" ->
          lookup key (payload offset) = lookup key payload_template)
    /\ offset <= 270 < offset + count
    /\ (forall offset',
          In offset' (range 0 total_results count) ->
          offset' <= 270 < offset' + count -> offset' = offset).
Proof.
  apply (pages_tile_the_records 270). unfold total_results. lia.
Defined.

(* ================================================================= *)
(** * Further properties of normalization *)

(** X8.  Which records are in the table, and with what: the row of the
    record at position [i] of the fetched data is in the table exactly
    when none of its ten cells is null and each of its eight numeric
    cells converts to a float; it is then there under the label [i],
    with its two text cells as fetched and its eight numeric cells
    converted. *)
Theorem kept_iff_convertible (str_to_float : string -> option number)
    (data : list (list (string * json))) (i : nat)
    (d : list (string * json)) :
  Forall is_row data ->
  nth_error data i = Some d ->
  exists df,
    normalize str_to_float data = Ok df
    /\ (In i (map fst (rows df))
        <-> existsb isna (raw_cells d) = false
            /\ forallb (fun c => is_float (to_numeric_cell str_to_float c))
                       (skipn 2 (raw_cells d)) = true)
    /\ (forall cells,
          In (i, cells) (rows df) ->
          cells = firstn 2 (raw_cells d)
                  ++ map (to_numeric_cell str_to_float)
                         (skipn 2 (raw_cells d))).
Proof.
  intros Hd Hi.
  assert (Hne : data <> []) by (intros ->; now destruct i).
  assert (Hrow : is_row d).
  { rewrite Forall_forall in Hd. apply Hd. now apply nth_error_In with i. }
  eexists. split; [ now apply normalize_rows | ]. cbn [rows]. split.
  - rewrite (normalized_rows_label str_to_float data i d Hi).
    unfold complete. cbn [snd coerce_row]. rewrite !negb_true_iff.
    destruct (is_row_inv Hrow)
      as (v0 & v1 & v2 & v3 & v4 & v5 & v6 & v7 & v8 & v9 & ->).
    cbn [raw_cells map snd firstn skipn app existsb forallb].
    split.
    + intros [H0 H1]. split; [ exact H0 | ].
      repeat (apply orb_false_elim in H1; destruct H1 as [? H1]).
      rewrite !complete_float by assumption. reflexivity.
    + intros [H0 H1]. split; [ exact H0 | ].
      repeat (apply orb_false_elim in H0; destruct H0 as [? H0]).
      repeat (apply andb_prop in H1; destruct H1 as [? H1]).
      repeat match goal with
             | H : is_float ?c = true |- _ =>
                 destruct c; try discriminate H; clear H
             end.
      repeat match goal with
             | H : isna ?c = false |- _ => rewrite H; clear H
             end.
      reflexivity.
  - intros cells Hin.
    destruct (normalized_rows_inv str_to_float data (i, cells) Hd Hin)
      as (d' & Hi' & _ & Hr & _).
    cbn [fst] in Hi', Hr. rewrite Hi in Hi'. injection Hi' as <-.
    unfold coerce_row in Hr. cbn [fst snd] in Hr. now injection Hr.
Qed.

Lemma kept_iff_convertible_witness :
  exists df,
    normalize decimal_to_float sample_data = Ok df
    /\ (In 0%nat (map fst (rows df))
        <-> existsb isna (raw_cells gold_row) = false
            /\ forallb (fun c => is_float (to_numeric_cell decimal_to_float c))
                       (skipn 2 (raw_cells gold_row)) = true)
    /\ (forall cells,
          In (0%nat, cells) (rows df) ->
          cells = firstn 2 (raw_cells gold_row)
                  ++ map (to_numeric_cell decimal_to_float)
                         (skipn 2 (raw_cells gold_row))).
Proof.
  apply (kept_iff_convertible decimal_to_float sample_data 0 gold_row).
  - repeat constructor.
  - reflexivity.
Defined.



Lemma seq_sorted (start n : nat) : StronglySorted lt (seq start n).
Proof.
  revert start. induction n as [ | n IH ]; intros start; cbn [seq].
  - constructor.
  - constructor; [ apply IH | ].
    apply Forall_forall. intros x Hx. apply in_seq in Hx. lia.
Qed.

Lemma sorted_labels_filter (f : nat * list cell -> bool)
    (l : list (nat * list cell)) :
  StronglySorted lt (map fst l) -> StronglySorted lt (map fst (filter f l)).
Proof.
  induction l as [ | x l IH ]; intros H; [ constructor | ].
  cbn [map] in H. apply StronglySorted_inv in H. destruct H as [Hs Hall].
  cbn [filter]. destruct (f x); [ | now apply IH ].
  cbn [map]. constructor; [ now apply IH | ].
  rewrite Forall_forall in *. intros y Hy. apply Hall.
  apply in_map_iff in Hy. destruct Hy as [r [<- Hr]].
  apply filter_In in Hr. now apply in_map.
Qed.

(** X10.  The table keeps the order of the fetch and the labels of line
    66: the labels of its rows are positions in the fetched data, strictly
    increasing down the table (the index is never reset, so a dropped
    record leaves a gap), and the table has at most as many rows as
    records were fetched. *)
Theorem table_keeps_fetch_order (str_to_float : string -> option number)
    (data : list (list (string * json))) (df : frame) :
  Forall is_row data ->
  normalize str_to_float data = Ok df ->
  StronglySorted lt (map fst (rows df))
  /\ (forall label, In label (map fst (rows df)) ->
        (label < List.length data)%nat)
  /\ (List.length (rows df) <= List.length data)%nat.
Proof.
  intros Hd Hnorm.
  destruct data as [ | d0 data' ]; [ discriminate | ].
  rewrite normalize_rows in Hnorm by (assumption || discriminate).
  injection Hnorm as <-. cbn [rows].
  set (data := d0 :: data') in *.
  assert (Hlabels : map fst (raw_rows data) = seq 0 (List.length data)).
  { unfold raw_rows. rewrite <- (length_map raw_cells).
    apply map_fst_combine_seq. }
  split; [ | split ].
  - unfold normalized_rows, first_pass.
    apply sorted_labels_filter. rewrite map_map. cbn [coerce_row fst].
    change (fun x : nat * list cell => fst x) with (@fst nat (list cell)).
    apply sorted_labels_filter. rewrite Hlabels. apply seq_sorted.
  - intros label Hin. apply in_map_iff in Hin.
    destruct Hin as [r [<- Hr]].
    destruct (normalized_rows_inv str_to_float data r Hd Hr)
      as (d & Hi & _).
    apply nth_error_Some. congruence.
  - unfold normalized_rows, first_pass.
    eapply Nat.le_trans; [ apply filter_length_le | ].
    rewrite length_map.
    eapply Nat.le_trans; [ apply filter_length_le | ].
    rewrite <- (length_map fst), Hlabels, length_seq. lia.
Qed.

Lemma table_keeps_fetch_order_witness :
  StronglySorted lt (map fst (rows sample_table))
  /\ (forall label, In label (map fst (rows sample_table)) ->
        (label < List.length sample_data)%nat)
  /\ (List.length (rows sample_table) <= List.length sample_data)%nat.
Proof.
  apply (table_keeps_fetch_order decimal_to_float sample_data sample_table).
  - repeat constructor.
  - reflexivity.
Defined.

(* ================================================================= *)
(** * Further properties of the views *)

Lemma StronglySorted_firstn {A : Type} (R : A -> A -> Prop) (n : nat)
    (l : list A) :
  StronglySorted R l -> StronglySorted R (firstn n l).
Proof.
  intros H. rewrite <- (firstn_skipn n l) in H.
  now apply StronglySorted_app_inv in H.
Qed.

(** The metrics of the selector and the place of their columns. *)
Lemma metric_columns (label : string) :
  In label (map fst metric_map) ->
  exists metric i,
    metric_col label = Ok metric
    /\ In metric numeric_cols
    /\ index_of metric clean_columns = Some i
    /\ (2 <= i < 10)%nat.
Proof.
  cbn [metric_map map fst In].
  intros [ <- | [ <- | [ <- | [ <- | [] ] ] ] ].
  - exists "1D_Return", 4%nat. repeat split; cbn; auto 10; lia.
  - exists "1M_Return", 5%nat. repeat split; cbn; auto 10; lia.
  - exists "6M_Return", 6%nat. repeat split; cbn; auto 10; lia.
  - exists "1Y_Return", 7%nat. repeat split; cbn; auto 10; lia.
Qed.

(** X11.  For each of the four metrics of the selector and any size [n]
    (negative sizes included), both views of a table the pipeline
    returned are built without an exception; they are rows of the table
    under the table's columns; the top view lists them from the highest
    value of the metric to the lowest, the bottom view from the lowest to
    the highest. *)
Theorem views_are_sorted
    (sort_rows : (nat * list cell -> nat * list cell -> bool) ->
                 list (nat * list cell) -> list (nat * list cell))
    (df : frame) (label : string) (n : Z) :
  sorts sort_rows ->
  normalized df ->
  In label (map fst metric_map) ->
  exists metric i top under,
    metric_col label = Ok metric
    /\ index_of metric (columns df) = Some i
    /\ top_df sort_rows df metric n = Ok top
    /\ under_df sort_rows df metric n = Ok under
    /\ columns top = columns df
    /\ columns under = columns df
    /\ incl (rows top) (rows df)
    /\ incl (rows under) (rows df)
    /\ StronglySorted (fun x y => row_leb i true y x = true) (rows top)
    /\ StronglySorted (fun x y => row_leb i true x y = true) (rows under).
Proof.
  intros Hsort Hdf Hlabel.
  destruct (normalized_numeric df Hdf) as (Hcols & Hrows & Hnd).
  destruct (metric_columns label Hlabel) as (metric & i & Hm & _ & Hidx & Hi).
  exists metric, i.
  unfold top_df, under_df, sort_values. rewrite Hcols, Hidx. cbn [bind].
  do 2 eexists.
  split; [ exact Hm | ]. split; [ reflexivity | ].
  split; [ reflexivity | ]. split; [ reflexivity | ].
  unfold head. cbn [columns rows].
  split; [ reflexivity | ]. split; [ reflexivity | ].
  pose proof (descending_perm sort_rows Hsort (rows df) i) as Hpd.
  pose proof (ascending_perm sort_rows Hsort (rows df) i) as Hpa.
  pose proof (descending_sorted sort_rows Hsort (rows df) i Hrows Hi) as Hsd.
  pose proof (ascending_sorted sort_rows Hsort (rows df) i) as Hsa.
  split; [ | split; [ | split ] ].
  - intros r Hr. apply (Permutation_in _ Hpd).
    destruct (0 <=? n); now apply In_firstn in Hr.
  - intros r Hr. apply (Permutation_in _ Hpa).
    destruct (0 <=? n); now apply In_firstn in Hr.
  - destruct (0 <=? n); now apply StronglySorted_firstn.
  - destruct (0 <=? n); now apply StronglySorted_firstn.
Qed.

Lemma views_are_sorted_witness :
  exists metric i top under,
    metric_col "6 Month Return" = Ok metric
    /\ index_of metric (columns ranked_table) = Some i
    /\ top_df stable_sort ranked_table metric (-3) = Ok top
    /\ under_df stable_sort ranked_table metric (-3) = Ok under
    /\ columns top = columns ranked_table
    /\ columns under = columns ranked_table
    /\ incl (rows top) (rows ranked_table)
    /\ incl (rows under) (rows ranked_table)
    /\ StronglySorted (fun x y => row_leb i true y x = true) (rows top)
    /\ StronglySorted (fun x y => row_leb i true x y = true) (rows under).
Proof.
  apply (views_are_sorted stable_sort ranked_table "6 Month Return" (-3)).
  - exact stable_sort_sorts.
  - exact ranked_table_normalized.
  - cbn. auto.
Defined.

(** X12.  When the size asked for is at least the number of rows, which
    is what the slider gives at first on a table of fewer than 50 rows,
    [head] cuts nothing: the top view and the bottom view both hold every
    row of the table. *)
Theorem short_table_views_hold_every_row
    (sort_rows : (nat * list cell -> nat * list cell -> bool) ->
                 list (nat * list cell) -> list (nat * list cell))
    (df : frame) (label : string) :
  sorts sort_rows ->
  normalized df ->
  In label (map fst metric_map) ->
  len df <= 50 ->
  top_n df None = 50
  /\ exists metric top under,
       metric_col label = Ok metric
       /\ top_df sort_rows df metric (top_n df None) = Ok top
       /\ under_df sort_rows df metric (top_n df None) = Ok under
       /\ Permutation (rows top) (rows df)
       /\ Permutation (rows under) (rows df).
Proof.
  intros Hsort Hdf Hlabel Hlen.
  destruct (normalized_numeric df Hdf) as (Hcols & Hrows & Hnd).
  destruct (metric_columns label Hlabel) as (metric & i & Hm & _ & Hidx & Hi).
  split; [ reflexivity | ].
  exists metric.
  change (top_n df None) with 50.
  unfold top_df, under_df, sort_values. rewrite Hcols, Hidx. cbn [bind].
  do 2 eexists.
  split; [ exact Hm | ]. split; [ reflexivity | ]. split; [ reflexivity | ].
  unfold head. cbn [columns rows Z.leb Z.compare].
  change (Z.to_nat 50) with 50%nat.
  pose proof (descending_perm sort_rows Hsort (rows df) i) as Hpd.
  pose proof (ascending_perm sort_rows Hsort (rows df) i) as Hpa.
  unfold len in Hlen.
  split.
  - rewrite firstn_all2; [ exact Hpd | ].
    rewrite (Permutation_length Hpd). lia.
  - rewrite firstn_all2; [ exact Hpa | ].
    rewrite (Permutation_length Hpa). lia.
Qed.

Lemma short_table_length : List.length (rows short_table) = 30%nat.
Proof. vm_compute; reflexivity. Qed.

Lemma short_table_views_hold_every_row_witness :
  top_n short_table None = 50
  /\ exists metric top under,
       metric_col "1 Year Return" = Ok metric
       /\ top_df stable_sort short_table metric (top_n short_table None)
          = Ok top
       /\ under_df stable_sort short_table metric (top_n short_table None)
          = Ok under
       /\ Permutation (rows top) (rows short_table)
       /\ Permutation (rows under) (rows short_table).
Proof.
  apply (short_table_views_hold_every_row stable_sort short_table
           "1 Year Return").
  - exact stable_sort_sorts.
  - exact short_table_normalized.
  - cbn. auto.
  - unfold len. rewrite short_table_length. lia.
Defined.

(** X13.  On a view of a table the pipeline returned, the filter of lines
    124-127 raises nothing whatever the two ranges are; it keeps the
    columns; its rows are exactly the rows of the view whose expense
    ratio and market capitalization lie within the ranges, bounds
    included; and filtering the result again with the same ranges changes
    nothing. *)
Theorem range_filter_selects
    (sort_rows : (nat * list cell -> nat * list cell -> bool) ->
                 list (nat * list cell) -> list (nat * list cell))
    (df view : frame) (metric : string) (n : Z) (expense mcap : cell * cell) :
  sorts sort_rows ->
  normalized df ->
  top_df sort_rows df metric n = Ok view
  \/ under_df sort_rows df metric n = Ok view ->
  exists out,
    range_filter view expense mcap = Ok out
    /\ columns out = columns view
    /\ (forall r,
          In r (rows out)
          <-> In r (rows view)
              /\ cell_ge (nth 9 (snd r) NaN) (fst expense) = true
              /\ cell_le (nth 9 (snd r) NaN) (snd expense) = true
              /\ cell_ge (nth 2 (snd r) NaN) (fst mcap) = true
              /\ cell_le (nth 2 (snd r) NaN) (snd mcap) = true)
    /\ range_filter out expense mcap = Ok out.
Proof.
  intros Hsort Hdf Hview.
  assert (Hnum : numeric_frame view).
  { apply normalized_numeric in Hdf. destruct Hview as [Hview | Hview].
    - now apply (view_numeric sort_rows Hsort df view metric n false).
    - now apply (view_numeric sort_rows Hsort df view metric n true). }
  destruct Hnum as (Hcols & _ & _).
  unfold range_filter. rewrite Hcols.
  change (index_of "Expense_Ratio" clean_columns) with (Some 9%nat).
  change (index_of "Market_Cap" clean_columns) with (Some 2%nat).
  eexists. split; [ reflexivity | ]. cbn [columns rows].
  split; [ reflexivity | ]. split.
  - intros r. rewrite filter_In, !andb_true_iff. tauto.
  - change (index_of "Expense_Ratio" clean_columns) with (Some 9%nat).
    change (index_of "Market_Cap" clean_columns) with (Some 2%nat).
    cbv iota beta. f_equal. f_equal.
    apply forallb_filter_id. apply forallb_forall. intros r Hr.
    now apply filter_In in Hr.
Qed.

Lemma range_filter_selects_witness :
  exists out,
    range_filter ranked_top
      (Float (Fin (2 # 100)), Float (Fin (5 # 100)))
      (Float (Fin (1160 # 1)), Float PosInf) = Ok out
    /\ columns out = columns ranked_top
    /\ (forall r,
          In r (rows out)
          <-> In r (rows ranked_top)
              /\ cell_ge (nth 9 (snd r) NaN) (Float (Fin (2 # 100))) = true
              /\ cell_le (nth 9 (snd r) NaN) (Float (Fin (5 # 100))) = true
              /\ cell_ge (nth 2 (snd r) NaN) (Float (Fin (1160 # 1))) = true
              /\ cell_le (nth 2 (snd r) NaN) (Float PosInf) = true)
    /\ range_filter out
         (Float (Fin (2 # 100)), Float (Fin (5 # 100)))
         (Float (Fin (1160 # 1)), Float PosInf) = Ok out.
Proof.
  apply (range_filter_selects stable_sort ranked_table ranked_top
           "1Y_Return" 50
           (Float (Fin (2 # 100)), Float (Fin (5 # 100)))
           (Float (Fin (1160 # 1)), Float PosInf)).
  - exact stable_sort_sorts.
  - exact ranked_table_normalized.
  - left. vm_compute. reflexivity.
Defined.

(** The minimum and the maximum of a column of floats are among its
    values. *)
Lemma series_min_attained (values : list cell) (a : number) :
  forallb is_float values = true ->
  In (fold_left (fun acc c =>
                   match acc, c with
                   | Float a, Float x => if number_leb a x then acc else c
                   | NaN, Float _ => c
                   | _, _ => acc
                   end) values (Float a))
     (Float a :: values).
Proof.
  revert a. induction values as [ | c values IH ]; intros a Hf.
  - now left.
  - cbn [forallb] in Hf. apply andb_prop in Hf. destruct Hf as [Hc Hf].
    destruct c as [ | x | ]; try discriminate.
    cbn [fold_left]. destruct (number_leb a x).
    + destruct (IH a Hf) as [ H | H ]; [ now left | right; now right ].
    + right. exact (IH x Hf).
Qed.

Lemma series_max_attained (values : list cell) (a : number) :
  forallb is_float values = true ->
  In (fold_left (fun acc c =>
                   match acc, c with
                   | Float a, Float x => if number_leb x a then acc else c
                   | NaN, Float _ => c
                   | _, _ => acc
                   end) values (Float a))
     (Float a :: values).
Proof.
  revert a. induction values as [ | c values IH ]; intros a Hf.
  - now left.
  - cbn [forallb] in Hf. apply andb_prop in Hf. destruct Hf as [Hc Hf].
    destruct c as [ | x | ]; try discriminate.
    cbn [fold_left]. destruct (number_leb x a).
    + destruct (IH a Hf) as [ H | H ]; [ now left | right; now right ].
    + right. exact (IH x Hf).
Qed.

(** X14.  On a view that is not empty, the bounds the two range sliders
    are given (lines 119-122) are floats that occur in their column of
    the view, and the lower one is at most the upper one.  On a view
    without rows both bounds are NaN. *)
Theorem slider_bounds_come_from_the_view
    (sort_rows : (nat * list cell -> nat * list cell -> bool) ->
                 list (nat * list cell) -> list (nat * list cell))
    (df view : frame) (metric col : string) (n : Z) :
  sorts sort_rows ->
  normalized df ->
  top_df sort_rows df metric n = Ok view
  \/ under_df sort_rows df metric n = Ok view ->
  col = "Expense_Ratio" \/ col = "Market_Cap" ->
  exists values,
    getitem view col = Ok values
    /\ (rows view = [] ->
        series_min values = NaN /\ series_max values = NaN)
    /\ (rows view <> [] ->
        exists lo hi,
          series_min values = Float lo /\ series_max values = Float hi
          /\ In (Float lo) values /\ In (Float hi) values
          /\ number_leb lo hi = true).
Proof.
  intros Hsort Hdf Hview Hcol.
  assert (Hnum : numeric_frame view).
  { apply normalized_numeric in Hdf. destruct Hview as [Hview | Hview].
    - now apply (view_numeric sort_rows Hsort df view metric n false).
    - now apply (view_numeric sort_rows Hsort df view metric n true). }
  destruct Hnum as (Hcols & Hrows & _).
  assert (Hi : exists i, (2 <= i < 10)%nat
                         /\ index_of col clean_columns = Some i).
  { destruct Hcol as [ -> | -> ];
      [ exists 9%nat | exists 2%nat ]; split; (lia || reflexivity). }
  destruct Hi as (i & Hi & Hidx).
  unfold getitem. rewrite Hcols, Hidx.
  eexists. split; [ reflexivity | ].
  pose proof (numeric_column_floats view i Hrows Hi) as Hf.
  set (values := map (fun r => nth i (snd r) NaN) (rows view)) in *.
  split.
  - intros Hnil. subst values. rewrite Hnil. now split.
  - intros Hne.
    destruct values as [ | c values' ] eqn:Ev.
    { subst values. destruct (rows view); [ congruence | discriminate ]. }
    pose proof (series_min_below _ Hf) as Hmin.
    pose proof (series_max_above _ Hf) as Hmax.
    cbn [forallb] in Hf. apply andb_prop in Hf. destruct Hf as [Hc Hf].
    destruct c as [ | x | ]; try discriminate.
    destruct (series_min_fold values' x Hf) as (lo & Hlo & _ & _).
    destruct (series_max_fold values' x Hf) as (hi & Hhi & _ & _).
    pose proof (series_min_attained values' x Hf) as Hain.
    pose proof (series_max_attained values' x Hf) as Hbin.
    unfold series_min, series_max in *. cbn [fold_left] in *.
    rewrite Hlo in *. rewrite Hhi in *.
    exists lo, hi. repeat split; try assumption.
    apply Forall_inv in Hmin. apply Forall_inv in Hmax.
    cbn in Hmin, Hmax. now apply number_leb_trans with x.
Qed.

Lemma slider_bounds_come_from_the_view_witness :
  exists values,
    getitem ranked_top "Market_Cap" = Ok values
    /\ (rows ranked_top = [] ->
        series_min values = NaN /\ series_max values = NaN)
    /\ (rows ranked_top <> [] ->
        exists lo hi,
          series_min values = Float lo /\ series_max values = Float hi
          /\ In (Float lo) values /\ In (Float hi) values
          /\ number_leb lo hi = true).
Proof.
  apply (slider_bounds_come_from_the_view stable_sort ranked_table
           ranked_top "1Y_Return" "Market_Cap" 50).
  - exact stable_sort_sorts.
  - exact ranked_table_normalized.
  - left. vm_compute. reflexivity.
  - now right.
Defined.

(* ================================================================= *)
(** * The column labels and the stored table *)

Lemma replace_space_no_space (fuel : nat) (s : string) :
  (String.length s <= fuel)%nat ->
  ~ In " "%char (list_ascii_of_string (replace_fuel fuel " " "_" s)).
Proof.
  revert s. induction fuel as [ | fuel IH ]; intros s Hlen.
  - destruct s; [ cbn; tauto | cbn in Hlen; lia ].
  - destruct s as [ | c s ]; [ cbn; tauto | ].
    cbn [String.length] in Hlen.
    cbn [replace_fuel drop_prefix].
    destruct (Ascii.eqb " " c) eqn:E.
    + cbn [String.append list_ascii_of_string In].
      intros [ H | H ]; [ discriminate | ].
      revert H. apply IH. lia.
    + cbn [list_ascii_of_string In].
      intros [ H | H ].
      * subst c. now rewrite Ascii.eqb_refl in E.
      * revert H. apply IH. lia.
Qed.

(** X15.  Whatever a column label is, the label line 68 makes of it
    holds no space: every space left after the stripping is an
    underscore. *)
Theorem clean_label_has_no_space (s : string) :
  ~ In " "%char (list_ascii_of_string (clean_label s)).
Proof.
  unfold clean_label, replace at 1. apply replace_space_no_space. lia.
Qed.

(** X16.  A refresh that fails keeps the table stored before: when every
    page request returns a status other than 200, the run with the button
    pressed requests the 14 pages and ends with the exception of
    [fetch_etf_data], and the stored table is the one of before; the next
    run without the button makes no request and shows that table. *)
Theorem failed_refresh_keeps_the_table
    (str_to_float : string -> option number) (post : Z -> outcome)
    (etf_data : option frame) :
  (forall offset, In offset (range 0 total_results count) ->
     exists status_code body,
       post offset = Response status_code body /\ status_code <> 200) ->
  exists trace e,
    run_script str_to_float post etf_data true
    = (trace, etf_data, Raise e)
    /\ posts trace = range 0 total_results count
    /\ run_script str_to_float post etf_data false
       = ([], etf_data,
          match etf_data with
          | None => Ok PleaseFetch
          | Some df => Ok (Dashboard df)
          end).
Proof.
  intros Hfail. apply page_data_failed in Hfail. destruct Hfail as [Hans Hnil].
  exists (flat_map (page_events post) (range 0 total_results count)).
  eexists.
  split; [ | split ].
  - unfold run_script, fetch_etf_data, fetch_pages.
    rewrite (fetch_loop_answered post _ Hans). rewrite Hnil. reflexivity.
  - apply posts_page_events.
  - reflexivity.
Qed.

Lemma failed_refresh_keeps_the_table_witness :
  exists trace e,
    run_script decimal_to_float post_refused (Some sample_table) true
    = (trace, Some sample_table, Raise e)
    /\ posts trace = range 0 total_results count
    /\ run_script decimal_to_float post_refused (Some sample_table) false
       = ([], Some sample_table, Ok (Dashboard sample_table)).
Proof.
  apply (failed_refresh_keeps_the_table decimal_to_float post_refused
           (Some sample_table)).
  intros offset _. exists 500, None. split; [ reflexivity | lia ].
Defined.

(** X17.  A refresh that returns replaces the stored table, whatever it
    was, by the table fetched, and the run shows the new table; the
    refresh requests the pages even when a table is stored already. *)
Theorem refresh_replaces_the_table
    (str_to_float : string -> option number) (post : Z -> outcome)
    (etf_data : option frame) :
  answered post (range 0 total_results count) = true ->
  flat_map (page_data post) (range 0 total_results count) <> [] ->
  exists trace df,
    run_script str_to_float post etf_data true
    = (trace, Some df, Ok (Dashboard df))
    /\ posts trace = range 0 total_results count
    /\ normalize str_to_float
         (flat_map (page_data post) (range 0 total_results count)) = Ok df.
Proof.
  intros Hans Hne.
  assert (Hrows : Forall is_row
            (flat_map (page_data post) (range 0 total_results count))).
  { apply (fetch_loop_is_row post (range 0 total_results count) [] []
             (flat_map (page_events post) (range 0 total_results count))).
    - constructor.
    - now rewrite (fetch_loop_answered post _ Hans). }
  exists (flat_map (page_events post) (range 0 total_results count)).
  eexists.
  unfold run_script, fetch_etf_data, fetch_pages.
  rewrite (fetch_loop_answered post _ Hans). cbn [app bind].
  rewrite (normalize_rows str_to_float _ Hrows Hne).
  split; [ reflexivity | ].
  split; [ apply posts_page_events | reflexivity ].
Qed.

Lemma refresh_replaces_the_table_witness :
  exists trace df,
    run_script decimal_to_float post_sample (Some sample_table) true
    = (trace, Some df, Ok (Dashboard df))
    /\ posts trace = range 0 total_results count
    /\ normalize decimal_to_float
         (flat_map (page_data post_sample) (range 0 total_results count))
       = Ok df.
Proof.
  apply (refresh_replaces_the_table decimal_to_float post_sample
           (Some sample_table)).
  - reflexivity.
  - discriminate.
Defined.
